(** * EC2 provisioning and listing scripts: a shallow embedding

    The repository holds two boto3 scripts, [create_ec2.py] (the
    Provisioner) and [list_ec2.py] (the Lister).  Both are straight-line
    sequences of calls to the EC2 service with [try]/[except] blocks and
    prints around them.

    The embedding keeps that shape.  A script is a computation in a small
    state-and-exception monad [Py]; the state holds the provider's account
    state, the working directory, the console output and the log of API
    calls issued so far.  The EC2 service is not part of the repository: it
    is a parameter, a function that answers every request with a payload or
    an exception and moves the account to a next state. *)

From Stdlib Require Import Ascii String ZArith List.
From stdpp Require Import base option strings gmap list.

Open Scope string_scope.
Open Scope Z_scope.
Open Scope list_scope.

(** ** Python values used by the scripts *)

(** Strings are byte strings; the two non-ASCII glyphs the script prints are
    kept as their UTF-8 bytes. *)
Definition nl : string := String (ascii_of_nat 10) "".
Definition tab : string := String (ascii_of_nat 9) "".

(** ["="*60] *)
Fixpoint str_mul (s : string) (n : nat) : string :=
  match n with
  | O => ""
  | S n' => s +:+ str_mul s n'
  end.

(** [needle in hay] on Python strings: the substring test. *)
Fixpoint str_in (needle hay : string) : bool :=
  String.prefix needle hay ||
  match hay with
  | EmptyString => false
  | String _ rest => str_in needle rest
  end.

(** Truth value of an optional string: [None] and [''] are false. *)
Definition truthy (v : option string) : bool :=
  match v with
  | None => false
  | Some s => negb (String.eqb s "")
  end.

(** [f"{v}"] for a value that is a string or [None]. *)
Definition fmt (v : option string) : string :=
  match v with
  | None => "None"
  | Some s => s
  end.

(** Exceptions.  [ClientError] is botocore's exception for an error
    response of the service and carries its text ([str(e)]); the scripts
    catch nothing else.  [IndexError] is raised by [xs[0]] on an empty
    list.  [OtherError] stands for every other exception a library call can
    raise (a waiter that gives up, a connection failure). *)
Inductive exn : Type :=
| ClientError (msg : string)
| IndexError
| OtherError (msg : string).

Inductive result (A : Type) : Type :=
| Ok (v : A)
| Err (e : exn).
Arguments Ok {A} v.
Arguments Err {A} e.

(** ** The EC2 interface, as far as the scripts use it *)

Record Filter := { filter_Name : string; filter_Values : list string }.
Record InstanceTypeInfo := { InstanceType : string }.
Record SecurityGroup := { GroupId : string }.
Record IpRange := { CidrIp : string }.
Record IpPermission := {
  IpProtocol : string;
  FromPort : Z;
  ToPort : Z;
  IpRanges : list IpRange
}.
Record Tag := { Key : string; Value : string }.
Record TagSpecification := { ResourceType : string; Tags : list Tag }.

(** A boto3 [Instance] resource: its identity, and the attributes that
    [load()] fetches. *)
Record Instance := { instance_id : string }.
Record InstanceState := { Name : string }.
Record InstanceData := {
  state : InstanceState;
  public_ip_address : option string
}.

(** Entries of a [describe_instances] response. *)
Record InstanceDescription := {
  InstanceId : string;
  State : InstanceState;
  desc_InstanceType : string
}.
Record Reservation := { Instances : list InstanceDescription }.

(** One constructor per client or resource method, with the keyword
    arguments the scripts pass. *)
Inductive api : Type :=
| DescribeInstanceTypes (Filters : list Filter) (MaxResults : Z)
| DescribeKeyPairs (KeyNames : list string)
| DescribeSecurityGroups (GroupNames : list string)
| CreateSecurityGroup (GroupName Description : string)
| AuthorizeSecurityGroupIngress (Group : string)
    (IpPermissions : list IpPermission)
| CreateInstances (ImageId : string) (MinCount MaxCount : Z)
    (InstanceType_ KeyName : string) (SecurityGroupIds : list string)
    (TagSpecifications : list TagSpecification)
| WaitUntilRunning (i : Instance)
| Load (i : Instance)
| DescribeInstances.

(** The part of each response the scripts read. *)
Definition reply (c : api) : Type :=
  match c with
  | DescribeInstanceTypes _ _ => list InstanceTypeInfo
  | DescribeKeyPairs _ => unit
  | DescribeSecurityGroups _ => list SecurityGroup
  | CreateSecurityGroup _ _ => string
  | AuthorizeSecurityGroupIngress _ _ => unit
  | CreateInstances _ _ _ _ _ _ _ => list Instance
  | WaitUntilRunning _ => unit
  | Load _ => InstanceData
  | DescribeInstances => list Reservation
  end.

(** An entry of the call log: a request and what the service answered. *)
Record Event := Ev { ev_call : api; ev_reply : result (reply ev_call) }.

(** The provider: every request is answered and moves the account state. *)
Definition Provider (W : Type) : Type :=
  forall c : api, W -> result (reply c) * W.

(** ** The monad of the scripts *)

Record Env (W : Type) := mkEnv {
  cloud : W;                       (* the provider's account state *)
  files : gmap string string;      (* the working directory *)
  stdout : list string;            (* one entry per [print] *)
  calls : list Event               (* API calls, oldest first *)
}.
Arguments mkEnv {W}.
Arguments cloud {W}.
Arguments files {W}.
Arguments stdout {W}.
Arguments calls {W}.

Inductive outcome (A : Type) : Type :=
| Returned (a : A)
| Raised (e : exn).
Arguments Returned {A} a.
Arguments Raised {A} e.

Definition Py (W A : Type) : Type := Env W -> outcome A * Env W.

Definition ret {W A} (a : A) : Py W A := fun s => (Returned a, s).

Definition bind {W A B} (m : Py W A) (k : A -> Py W B) : Py W B :=
  fun s =>
    match m s with
    | (Returned a, s') => k a s'
    | (Raised e, s') => (Raised e, s')
    end.

Definition raise {W A} (e : exn) : Py W A := fun s => (Raised e, s).

(** [try: body except ClientError as e: handler (str e)]: only a
    [ClientError] is caught, and effects of the body up to the exception
    stay. *)
Definition try_except_ClientError {W A}
    (body : Py W A) (handler : string -> Py W A) : Py W A :=
  fun s =>
    match body s with
    | (Raised (ClientError msg), s') => handler msg s'
    | r => r
    end.

#[global] Instance py_ret {W} : MRet (Py W) := @ret W.
#[global] Instance py_bind {W} : MBind (Py W) := fun A B k m => bind m k.

(** [print(s)] *)
Definition print {W} (s : string) : Py W unit :=
  fun '(mkEnv w fs out log) => (Returned tt, mkEnv w fs (out ++ [s]) log).

(** [os.path.exists(path)] *)
Definition os_path_exists {W} (path : string) : Py W bool :=
  fun '(mkEnv w fs out log) =>
    (Returned (bool_decide (is_Some (fs !! path))), mkEnv w fs out log).

(** [open(path, 'w')]: the file is created or truncated. *)
Definition open_w {W} (path : string) : Py W unit :=
  fun '(mkEnv w fs out log) => (Returned tt, mkEnv w (<[path := ""]> fs) out log).

(** [f.write(s)] on the file opened at [path]. *)
Definition write {W} (path s : string) : Py W unit :=
  fun '(mkEnv w fs out log) =>
    (Returned tt, mkEnv w (alter (fun old => old +:+ s) path fs) out log).

(** [xs[0]] *)
Definition index0 {W A} (xs : list A) : Py W A :=
  match xs with
  | [] => raise IndexError
  | x :: _ => ret x
  end.

(** [for x in xs: body x] *)
Fixpoint for_each {W A} (xs : list A) (body : A -> Py W unit) : Py W unit :=
  match xs with
  | [] => ret tt
  | x :: rest => body x;; for_each rest body
  end.

Section Scripts.

Context {W : Type} (aws : Provider W).

(** A call of a client or resource method: the request goes to the
    provider, is logged with its answer, and an error answer is raised. *)
Definition request (c : api) : Py W (reply c) :=
  fun '(mkEnv w fs out log) =>
    let '(r, w') := aws c w in
    let e' := mkEnv w' fs out (log ++ [Ev c r]) in
    match r with
    | Ok v => (Returned v, e')
    | Err x => (Raised x, e')
    end.

(** ** create_ec2.py *)

Definition get_free_tier_instance_type : Py W string :=
  try_except_ClientError
    (response ← request (DescribeInstanceTypes
                  [ {| filter_Name := "free-tier-eligible";
                       filter_Values := ["true"] |} ] 5);
     match response with
     | first :: _ =>
         let instance_type := InstanceType first in
         print ("Found free-tier instance type: " +:+ instance_type);;
         ret instance_type
     | [] =>
         print "No free-tier instance types found, using t2.micro as fallback";;
         ret "t3.micro"
     end)
    (fun e =>
       print ("Error querying instance types: " +:+ e +:+
              ", using t2.micro as fallback");;
       ret "t3.micro").

Definition check_key_pair (key_name : string) : Py W bool :=
  try_except_ClientError
    (request (DescribeKeyPairs [key_name]);;
     print ("Key pair '" +:+ key_name +:+ "' found in AWS.");;
     let pem_file := key_name +:+ ".pem" in
     found ← os_path_exists pem_file;
     (if (found : bool)
      then print ("Private key file '" +:+ pem_file +:+ "' found locally.")
      else
        print ("⚠ Warning: Private key file '" +:+ pem_file +:+
               "' not found in current directory.");;
        print "  You will need this file to connect to your instance via SSH.");;
     ret true)
    (fun e =>
       if str_in "InvalidKeyPair.NotFound" e
       then
         print ("❌ ERROR: Key pair '" +:+ key_name +:+ "' does not exist in AWS!");;
         print (nl +:+ "Please create it first with:");;
         print ("aws ec2 create-key-pair --key-name " +:+ key_name +:+
                " --query 'KeyMaterial' --output text > " +:+ key_name +:+ ".pem");;
         print (nl +:+ "This will create " +:+ key_name +:+
                ".pem in your current directory");;
         ret false
       else
         print ("Error checking key pair: " +:+ e);;
         ret false).

Definition create_security_group : Py W (option string) :=
  let group_name := "python-sg-for-ssh" in
  let description := "Security group for EC2 instance created via Python" in
  try_except_ClientError
    (response ← request (DescribeSecurityGroups [group_name]);
     print ("Security group '" +:+ group_name +:+ "' already exists. Using it.");;
     group ← index0 response;
     ret (Some (GroupId group)))
    (fun e =>
       if str_in "InvalidGroup.NotFound" e
       then
         print ("Creating new security group: '" +:+ group_name +:+ "'");;
         try_except_ClientError
           (security_group_id ← request (CreateSecurityGroup group_name description);
            print ("Security Group Created: " +:+ security_group_id);;
            request (AuthorizeSecurityGroupIngress security_group_id
                       [ {| IpProtocol := "tcp";
                            FromPort := 22;
                            ToPort := 22;
                            IpRanges := [ {| CidrIp := "0.0.0.0/0" |} ] |} ]);;
            print "SSH rule added (Port 22 open to world).";;
            ret (Some security_group_id))
           (fun sg_error =>
              print ("Error creating security group: " +:+ sg_error);;
              ret None)
       else
         print ("Error checking for security group: " +:+ e);;
         ret None).

Definition print_windows_connection_instructions
    (key_name : string) (public_ip : option string) : Py W unit :=
  if negb (truthy public_ip) then ret tt
  else
    print (nl +:+ str_mul "=" 60);;
    print "WINDOWS CONNECTION INSTRUCTIONS";;
    print (str_mul "=" 60);;
    print (nl +:+ "Public IP: " +:+ fmt public_ip);;
    print "Username: ec2-user";;
    print ("Key file: " +:+ key_name +:+ ".pem");;
    print (nl +:+ "Option 1: Using MobaXterm (Recommended for Windows)");;
    print "  1. Download MobaXterm: https://mobaxterm.mobatek.net/";;
    print "  2. Session -> SSH -> Enter the IP above";;
    print "  3. Specify username: ec2-user";;
    print ("  4. Advanced SSH settings -> Use private key: " +:+ key_name +:+ ".pem");;
    print (nl +:+ "Option 2: Using PuTTY");;
    print "  1. Convert .pem to .ppk using PuTTYgen";;
    print "  2. Use PuTTY with the .ppk file";;
    print ("  3. Host: ec2-user@" +:+ fmt public_ip);;
    print (nl +:+ "Option 3: Using AWS Session Manager (No SSH client needed)");;
    print "  1. aws ssm start-session --target your-instance-id".

(** The [try] block of [main]: launch, wait, report. *)
Definition launch (key_name instance_type sg_id : string) : Py W unit :=
  let ami_id := "ami-0c02fb55956c7d316" in
  try_except_ClientError
    (instances ← request (CreateInstances ami_id 1 1 instance_type key_name [sg_id]
                   [ {| ResourceType := "instance";
                        Tags := [ {| Key := "Name"; Value := "MyPythonInstance" |} ] |} ]);
     instance ← index0 instances;
     print (nl +:+ str_mul "=" 50);;
     print "SUCCESS: EC2 Instance Launched!";;
     print (str_mul "=" 50);;
     print ("Instance ID: " +:+ instance_id instance);;
     print ("Instance Type: " +:+ instance_type);;
     print ("Key Pair: " +:+ key_name);;
     print ("Security Group: " +:+ sg_id);;
     print (nl +:+ "Waiting for instance to initialize...");;
     request (WaitUntilRunning instance);;
     data ← request (Load instance);
     print ("Instance State: " +:+ Name (state data));;
     (if truthy (public_ip_address data)
      then
        print ("Public IP: " +:+ fmt (public_ip_address data));;
        print_windows_connection_instructions key_name (public_ip_address data);;
        let f := "instance_connection.txt" in
        open_w f;;
        write f ("Instance ID: " +:+ instance_id instance +:+ nl);;
        write f ("Public IP: " +:+ fmt (public_ip_address data) +:+ nl);;
        write f ("Key Pair: " +:+ key_name +:+ ".pem" +:+ nl);;
        write f ("Connect: ec2-user@" +:+ fmt (public_ip_address data) +:+ nl);;
        print (nl +:+ "Connection info saved to 'instance_connection.txt'")
      else ret tt);;
     print (nl +:+ "Use this command to check status:");;
     print ("aws ec2 describe-instances --instance-ids " +:+ instance_id instance))
    (fun e => print ("Failed to launch instance: " +:+ e)).

Definition main : Py W unit :=
  print (str_mul "=" 60);;
  print "EC2 Instance Creator with Free-Tier Detection";;
  print (str_mul "=" 60);;
  let key_name := "my-python-key" in
  found ← check_key_pair key_name;
  if negb found
  then print "Failed due to missing key pair. Exiting."
  else
    instance_type ← get_free_tier_instance_type;
    sg_id ← create_security_group;
    (* [if not sg_id]: [None] or the empty string *)
    match sg_id with
    | Some sg_id =>
        if negb (truthy (Some sg_id))
        then print "Failed to get a security group. Exiting."
        else launch key_name instance_type sg_id
    | None => print "Failed to get a security group. Exiting."
    end.

(** ** list_ec2.py *)

Definition list_ec2 : Py W unit :=
  response ← request DescribeInstances;
  print ("Instance ID" +:+ tab +:+ tab +:+ "State" +:+ tab +:+ tab +:+ "Type");;
  print "----------------------------------------------";;
  for_each response (fun reservation =>
    for_each (Instances reservation) (fun instance =>
      let instance_id := InstanceId instance in
      let state := Name (State instance) in
      let instance_type := desc_InstanceType instance in
      print (instance_id +:+ tab +:+ state +:+ tab +:+ tab +:+ instance_type))).

End Scripts.

(** A run starts with an empty console and an empty call log. *)
Definition start {W} (w : W) (fs : gmap string string) : Env W :=
  mkEnv w fs [] [].


(** ** Vocabulary of the statements *)

(** The requests the Provisioner issues with fixed arguments. *)
Definition free_tier_query (max_results : Z) : api :=
  DescribeInstanceTypes
    [ {| filter_Name := "free-tier-eligible"; filter_Values := ["true"] |} ]
    max_results.

Definition group_lookup : api := DescribeSecurityGroups ["python-sg-for-ssh"].

Definition group_creation : api :=
  CreateSecurityGroup "python-sg-for-ssh"
    "Security group for EC2 instance created via Python".

Definition ssh_rule : IpPermission :=
  {| IpProtocol := "tcp"; FromPort := 22; ToPort := 22;
     IpRanges := [ {| CidrIp := "0.0.0.0/0" |} ] |}.

(** The requests of a run, in the order they were issued. *)
Definition requests {W} (s : Env W) : list api := ev_call <$> calls s.

Definition is_launch (c : api) : bool :=
  match c with
  | CreateInstances _ _ _ _ _ _ _ => true
  | _ => false
  end.

(** The calls of the [try] block of [main]. *)
Definition is_instance_call (c : api) : bool :=
  match c with
  | CreateInstances _ _ _ _ _ _ _ | WaitUntilRunning _ | Load _ => true
  | _ => false
  end.

(** A text file made of the given lines, each ended by a newline. *)
Definition unlines (ls : list string) : string :=
  foldr (fun l rest => l +:+ nl +:+ rest) "" ls.

(** The four lines of the report. *)
Definition report_lines (instance_id public_ip key_name : string) : list string :=
  [ "Instance ID: " +:+ instance_id;
    "Public IP: " +:+ public_ip;
    "Key Pair: " +:+ key_name +:+ ".pem";
    "Connect: ec2-user@" +:+ public_ip ].

Definition report (instance_id public_ip key_name : string) : string :=
  unlines (report_lines instance_id public_ip key_name).

(** The heading of the connection instructions. *)
Definition instructions_banner : string := "WINDOWS CONNECTION INSTRUCTIONS".

(** A step is confined to the requests in [P]: it only appends to the call
    log, and only such requests; it only appends to the console, and not
    the banner of the connection instructions; it leaves the files alone. *)
Definition confined {W A} (P : api -> bool) (m : Py W A) : Prop :=
  forall s, exists evs out,
    calls (m s).2 = calls s ++ evs /\
    Forall (fun ev => P (ev_call ev) = true) evs /\
    stdout (m s).2 = stdout s ++ out /\
    (instructions_banner ∉ out) /\
    files (m s).2 = files s.

Definition is_key_call (c : api) : bool :=
  match c with DescribeKeyPairs _ => true | _ => false end.

Definition is_type_call (c : api) : bool :=
  match c with DescribeInstanceTypes _ _ => true | _ => false end.

Definition is_group_call (c : api) : bool :=
  match c with
  | DescribeSecurityGroups _ | CreateSecurityGroup _ _
  | AuthorizeSecurityGroupIngress _ _ => true
  | _ => false
  end.

(** An exception that no [except ClientError] clause catches. *)
Definition uncaught (e : exn) : Prop :=
  match e with
  | ClientError _ => False
  | _ => True
  end.

(** *** The paths of the setup steps

    Each step before the launch issues a short exchange with the provider
    and its result is fixed by the answers.  The relations below list, for
    each step, the exchanges that can happen with the result they lead
    to. *)

Inductive key_path (key_name : string) : list Event -> outcome bool -> Prop :=
| key_found u :
    key_path key_name [Ev (DescribeKeyPairs [key_name]) (Ok u)] (Returned true)
| key_refused msg :
    key_path key_name
      [Ev (DescribeKeyPairs [key_name]) (Err (ClientError msg))] (Returned false)
| key_raised e :
    uncaught e ->
    key_path key_name [Ev (DescribeKeyPairs [key_name]) (Err e)] (Raised e).

Inductive type_path : list Event -> outcome string -> Prop :=
| type_first t ts :
    type_path [Ev (free_tier_query 5) (Ok (t :: ts))] (Returned (InstanceType t))
| type_none :
    type_path [Ev (free_tier_query 5) (Ok [])] (Returned "t3.micro")
| type_refused msg :
    type_path [Ev (free_tier_query 5) (Err (ClientError msg))] (Returned "t3.micro")
| type_raised e :
    uncaught e ->
    type_path [Ev (free_tier_query 5) (Err e)] (Raised e).

Inductive group_path : list Event -> outcome (option string) -> Prop :=
| group_reused g gs :
    group_path [Ev group_lookup (Ok (g :: gs))] (Returned (Some (GroupId g)))
| group_lookup_empty :
    group_path [Ev group_lookup (Ok [])] (Raised IndexError)
| group_lookup_refused msg :
    str_in "InvalidGroup.NotFound" msg = false ->
    group_path [Ev group_lookup (Err (ClientError msg))] (Returned None)
| group_lookup_raised e :
    uncaught e ->
    group_path [Ev group_lookup (Err e)] (Raised e)
| group_created msg gid u :
    str_in "InvalidGroup.NotFound" msg = true ->
    group_path [Ev group_lookup (Err (ClientError msg));
                Ev group_creation (Ok gid);
                Ev (AuthorizeSecurityGroupIngress gid [ssh_rule]) (Ok u)]
               (Returned (Some gid))
| group_creation_refused msg msg' :
    str_in "InvalidGroup.NotFound" msg = true ->
    group_path [Ev group_lookup (Err (ClientError msg));
                Ev group_creation (Err (ClientError msg'))]
               (Returned None)
| group_creation_raised msg e :
    str_in "InvalidGroup.NotFound" msg = true ->
    uncaught e ->
    group_path [Ev group_lookup (Err (ClientError msg));
                Ev group_creation (Err e)]
               (Raised e)
| group_rule_refused msg gid msg' :
    str_in "InvalidGroup.NotFound" msg = true ->
    group_path [Ev group_lookup (Err (ClientError msg));
                Ev group_creation (Ok gid);
                Ev (AuthorizeSecurityGroupIngress gid [ssh_rule])
                   (Err (ClientError msg'))]
               (Returned None)
| group_rule_raised msg gid e :
    str_in "InvalidGroup.NotFound" msg = true ->
    uncaught e ->
    group_path [Ev group_lookup (Err (ClientError msg));
                Ev group_creation (Ok gid);
                Ev (AuthorizeSecurityGroupIngress gid [ssh_rule]) (Err e)]
               (Raised e).

(** *** The paths of [main]

    [main_path fs evs o fs' out]: from a working directory [fs], [main] can
    run through the exchange [evs], end with [o], leave the working
    directory [fs'] and the console [out]. *)

Definition key_name_of_main : string := "my-python-key".

Inductive main_path (fs : gmap string string) :
    list Event -> outcome unit -> gmap string string -> list string -> Prop :=
| stopped_without_key evs out :
    key_path key_name_of_main evs (Returned false) ->
    instructions_banner ∉ out ->
    main_path fs evs (Returned tt) fs
      (out ++ ["Failed due to missing key pair. Exiting."])
| raised_in_key_check evs e out :
    key_path key_name_of_main evs (Raised e) ->
    instructions_banner ∉ out ->
    main_path fs evs (Raised e) fs out
| raised_in_type_lookup evs1 evs2 e out :
    key_path key_name_of_main evs1 (Returned true) ->
    type_path evs2 (Raised e) ->
    instructions_banner ∉ out ->
    main_path fs (evs1 ++ evs2) (Raised e) fs out
| raised_in_group_step evs1 evs2 ty evs3 e out :
    key_path key_name_of_main evs1 (Returned true) ->
    type_path evs2 (Returned ty) ->
    group_path evs3 (Raised e) ->
    instructions_banner ∉ out ->
    main_path fs (evs1 ++ evs2 ++ evs3) (Raised e) fs out
| stopped_without_group evs1 evs2 ty evs3 sg out :
    key_path key_name_of_main evs1 (Returned true) ->
    type_path evs2 (Returned ty) ->
    group_path evs3 (Returned sg) ->
    truthy sg = false ->
    instructions_banner ∉ out ->
    main_path fs (evs1 ++ evs2 ++ evs3) (Returned tt) fs
      (out ++ ["Failed to get a security group. Exiting."])
| launched evs1 evs2 ty evs3 sg evs4 o fs' out out' :
    key_path key_name_of_main evs1 (Returned true) ->
    type_path evs2 (Returned ty) ->
    group_path evs3 (Returned (Some sg)) ->
    truthy (Some sg) = true ->
    instructions_banner ∉ out ->
    Forall (fun ev => is_instance_call (ev_call ev) = true) evs4 ->
    (forall i d, Ev (Load i) (Ok d) ∈ evs4 ->
       o = Returned tt /\
       (truthy (public_ip_address d) = false ->
          fs' = fs /\ instructions_banner ∉ out') /\
       (truthy (public_ip_address d) = true ->
          fs' = <["instance_connection.txt" :=
                    report (instance_id i) (fmt (public_ip_address d))
                           key_name_of_main]> fs)) ->
    main_path fs (evs1 ++ evs2 ++ evs3 ++ evs4) o fs' (out ++ out').

(** The group step was refused: the lookup was answered with a client error
    other than "not found", or the creation of the group or the addition of
    its rule was answered with a client error. *)
Definition group_step_refused (log : list Event) : Prop :=
  (exists msg, Ev group_lookup (Err (ClientError msg)) ∈ log /\
               str_in "InvalidGroup.NotFound" msg = false) \/
  (exists msg, Ev group_creation (Err (ClientError msg)) ∈ log) \/
  (exists gid perms msg,
     Ev (AuthorizeSecurityGroupIngress gid perms) (Err (ClientError msg)) ∈ log).

(** A step follows a path: what it appends to the call log and what it
    returns are related by [path]. *)
Definition follows {W A} (path : list Event -> outcome A -> Prop)
    (m : Py W A) : Prop :=
  forall s, exists evs, calls (m s).2 = calls s ++ evs /\ path evs (m s).1.

(** *** Assumptions on the provider

    The scripts rely on two properties of the service that no code of the
    repository establishes.  They are stated here as contracts on a
    provider and assumed where a claim needs them. *)

(** The account has a registry of group names: a lookup by name reports the
    registered group and only that, a successful creation registers the
    new identifier, and neither a lookup nor the addition of a rule changes
    the registry. *)
Record tracks_groups {W} (aws : Provider W)
    (registered : W -> string -> option string) : Prop := {
  lookup_found : forall w n gid,
    registered w n = Some gid ->
    exists g gs, (aws (DescribeSecurityGroups [n]) w).1 = Ok (g :: gs)
                 /\ GroupId g = gid;
  lookup_sound : forall w n g gs,
    (aws (DescribeSecurityGroups [n]) w).1 = Ok (g :: gs) ->
    registered w n = Some (GroupId g);
  lookup_pure : forall w ns n,
    registered (aws (DescribeSecurityGroups ns) w).2 n = registered w n;
  create_registers : forall w n d gid,
    (aws (CreateSecurityGroup n d) w).1 = Ok gid ->
    registered (aws (CreateSecurityGroup n d) w).2 n = Some gid;
  authorize_keeps : forall w g perms n,
    registered (aws (AuthorizeSecurityGroupIngress g perms) w).2 n
    = registered w n
}.

(** The provider has, in every state, a list of free-tier-eligible types in
    the order it reports them, and a capability query with [MaxResults = n]
    that succeeds is answered with the first [n] of them. *)
Definition honours_MaxResults {W} (aws : Provider W)
    (eligible : W -> list InstanceTypeInfo) : Prop :=
  forall w n ts,
    (aws (free_tier_query n) w).1 = Ok ts -> ts = take (Z.to_nat n) (eligible w).

(** The reading of the type selection under which the selected type is one
    of the first five eligible types: in one state, and in every state. *)
Definition among_first_five {W} (aws : Provider W)
    (eligible : W -> list InstanceTypeInfo) (w : W)
    (fs : gmap string string) : Prop :=
  exists t, t ∈ take 5 (eligible w) /\
    (get_free_tier_instance_type aws (start w fs)).1 = Returned (InstanceType t).

Definition always_among_first_five {W} (aws : Provider W)
    (eligible : W -> list InstanceTypeInfo) : Prop :=
  forall w fs, among_first_five aws eligible w fs.

(** ** A small provider to run the scripts against *)

Module Sim.

Record account := mkAccount {
  key_pairs : list string;               (* names of the key pairs *)
  eligible_types : list string;          (* free-tier types, in report order *)
  groups : gmap string string;           (* group name to group identifier *)
  refuse_types : bool;                   (* capability queries are not authorised *)
  refuse_groups : bool;                  (* group operations are not authorised *)
  address : option string;               (* address given to a launched instance *)
  reservations : list Reservation
}.

(** The texts of the error responses. *)
Definition key_not_found : string :=
  "An error occurred (InvalidKeyPair.NotFound) when calling the DescribeKeyPairs operation: The key pair does not exist".

Definition group_not_found : string :=
  "An error occurred (InvalidGroup.NotFound) when calling the DescribeSecurityGroups operation: The security group does not exist in default VPC".

Definition group_duplicate : string :=
  "An error occurred (InvalidGroup.Duplicate) when calling the CreateSecurityGroup operation: The security group already exists".

Definition not_authorized : string :=
  "An error occurred (UnauthorizedOperation) when calling the operation: You are not authorized to perform this operation.".

Definition eligible (a : account) : list InstanceTypeInfo :=
  map Build_InstanceTypeInfo (eligible_types a).

(** The group registered under a name, as far as the account shows it. *)
Definition registered (a : account) (n : string) : option string :=
  if refuse_groups a then None else groups a !! n.

Definition add_group (n gid : string) (a : account) : account :=
  mkAccount (key_pairs a) (eligible_types a) (<[n := gid]> (groups a))
            (refuse_types a) (refuse_groups a) (address a) (reservations a).

Definition handle : Provider account :=
  fun c a =>
    match c as c0 return result (reply c0) * account with
    | DescribeInstanceTypes _ n =>
        if refuse_types a then (Err (ClientError not_authorized), a)
        else (Ok (take (Z.to_nat n) (eligible a)), a)
    | DescribeKeyPairs names =>
        if forallb (fun n => bool_decide (n ∈ key_pairs a)) names
        then (Ok tt, a) else (Err (ClientError key_not_found), a)
    | DescribeSecurityGroups names =>
        if refuse_groups a then (Err (ClientError not_authorized), a)
        else match mapM (fun n => groups a !! n) names with
             | Some ids => (Ok (map Build_SecurityGroup ids), a)
             | None => (Err (ClientError group_not_found), a)
             end
    | CreateSecurityGroup n _ =>
        if refuse_groups a then (Err (ClientError not_authorized), a)
        else match groups a !! n with
             | Some _ => (Err (ClientError group_duplicate), a)
             | None => (Ok ("sg-" +:+ n), add_group n ("sg-" +:+ n) a)
             end
    | AuthorizeSecurityGroupIngress _ _ =>
        if refuse_groups a then (Err (ClientError not_authorized), a) else (Ok tt, a)
    | CreateInstances _ _ _ _ _ _ _ =>
        (Ok [ {| instance_id := "i-0123456789abcdef0" |} ], a)
    | WaitUntilRunning _ => (Ok tt, a)
    | Load _ =>
        (Ok {| state := {| Name := "running" |};
               public_ip_address := address a |}, a)
    | DescribeInstances => (Ok (reservations a), a)
    end.

(** An account with the key pair of the script, one eligible type, no
    group, and an address for launched instances. *)
Definition fresh : account :=
  mkAccount ["my-python-key"] ["t2.micro"] ∅ false false (Some "203.0.113.5") [].

(** Variants of [fresh]. *)
Definition no_key : account :=
  mkAccount [] ["t2.micro"] ∅ false false (Some "203.0.113.5") [].

Definition no_types : account :=
  mkAccount ["my-python-key"] [] ∅ false false (Some "203.0.113.5") [].

Definition many_types : account :=
  mkAccount ["my-python-key"]
    ["t2.micro"; "t3.micro"; "t3.small"; "t4g.micro"; "t4g.small"; "t3a.micro";
     "t3a.small"]
    ∅ false false (Some "203.0.113.5") [].

Definition types_refused : account :=
  mkAccount ["my-python-key"] ["t2.micro"] ∅ true false (Some "203.0.113.5") [].

Definition groups_refused : account :=
  mkAccount ["my-python-key"] ["t2.micro"] ∅ false true (Some "203.0.113.5") [].

Definition no_address : account :=
  mkAccount ["my-python-key"] ["t2.micro"] ∅ false false None [].

Definition with_instances : account :=
  mkAccount ["my-python-key"] ["t2.micro"] ∅ false false None
    [ {| Instances :=
           [ {| InstanceId := "i-0aaa"; State := {| Name := "running" |};
                desc_InstanceType := "t2.micro" |};
             {| InstanceId := "i-0bbb"; State := {| Name := "stopped" |};
                desc_InstanceType := "t3.micro" |} ] |};
      {| Instances := [] |};
      {| Instances :=
           [ {| InstanceId := "i-0ccc"; State := {| Name := "pending" |};
                desc_InstanceType := "t3.small" |} ] |} ].

End Sim.

(** ** The paths of the launch

    The [try] block of [main] is described like the setup steps, with the
    effect on the working directory and on the console as well. *)

Definition launch_request (key_name instance_type sg_id : string) : api :=
  CreateInstances "ami-0c02fb55956c7d316" 1 1 instance_type key_name [sg_id]
    [ {| ResourceType := "instance";
         Tags := [ {| Key := "Name"; Value := "MyPythonInstance" |} ] |} ].

(** What is printed between the creation of the instance and the wait. *)
Definition launched_lines (i : Instance) (key_name instance_type sg_id : string) :
    list string :=
  [ nl +:+ str_mul "=" 50;
    "SUCCESS: EC2 Instance Launched!";
    str_mul "=" 50;
    "Instance ID: " +:+ instance_id i;
    "Instance Type: " +:+ instance_type;
    "Key Pair: " +:+ key_name;
    "Security Group: " +:+ sg_id;
    nl +:+ "Waiting for instance to initialize..." ].

(** What [print_windows_connection_instructions] prints for an address. *)
Definition instruction_lines (key_name : string) (public_ip : option string) :
    list string :=
  [ nl +:+ str_mul "=" 60;
    "WINDOWS CONNECTION INSTRUCTIONS";
    str_mul "=" 60;
    nl +:+ "Public IP: " +:+ fmt public_ip;
    "Username: ec2-user";
    "Key file: " +:+ key_name +:+ ".pem";
    nl +:+ "Option 1: Using MobaXterm (Recommended for Windows)";
    "  1. Download MobaXterm: https://mobaxterm.mobatek.net/";
    "  2. Session -> SSH -> Enter the IP above";
    "  3. Specify username: ec2-user";
    "  4. Advanced SSH settings -> Use private key: " +:+ key_name +:+ ".pem";
    nl +:+ "Option 2: Using PuTTY";
    "  1. Convert .pem to .ppk using PuTTYgen";
    "  2. Use PuTTY with the .ppk file";
    "  3. Host: ec2-user@" +:+ fmt public_ip;
    nl +:+ "Option 3: Using AWS Session Manager (No SSH client needed)";
    "  1. aws ssm start-session --target your-instance-id" ].

(** The two lines that end a run in which the attributes were loaded. *)
Definition status_lines (i : Instance) : list string :=
  [ nl +:+ "Use this command to check status:";
    "aws ec2 describe-instances --instance-ids " +:+ instance_id i ].

(** [launch_path key ty sg fs evs o fs' out]: the exchange [evs] of the
    launch with the provider, its outcome [o], the working directory [fs']
    it leaves from [fs], and the lines [out] it prints. *)
Inductive launch_path (key_name instance_type sg_id : string)
    (fs : gmap string string) :
    list Event -> outcome unit -> gmap string string -> list string -> Prop :=
| launch_refused msg :
    launch_path key_name instance_type sg_id fs
      [Ev (launch_request key_name instance_type sg_id) (Err (ClientError msg))]
      (Returned tt) fs ["Failed to launch instance: " +:+ msg]
| launch_raised e :
    uncaught e ->
    launch_path key_name instance_type sg_id fs
      [Ev (launch_request key_name instance_type sg_id) (Err e)]
      (Raised e) fs []
| launch_answer_empty :
    launch_path key_name instance_type sg_id fs
      [Ev (launch_request key_name instance_type sg_id) (Ok [])]
      (Raised IndexError) fs []
| wait_refused i rest msg :
    launch_path key_name instance_type sg_id fs
      [Ev (launch_request key_name instance_type sg_id) (Ok (i :: rest));
       Ev (WaitUntilRunning i) (Err (ClientError msg))]
      (Returned tt) fs
      (launched_lines i key_name instance_type sg_id ++
       ["Failed to launch instance: " +:+ msg])
| wait_raised i rest e :
    uncaught e ->
    launch_path key_name instance_type sg_id fs
      [Ev (launch_request key_name instance_type sg_id) (Ok (i :: rest));
       Ev (WaitUntilRunning i) (Err e)]
      (Raised e) fs (launched_lines i key_name instance_type sg_id)
| load_refused i rest u msg :
    launch_path key_name instance_type sg_id fs
      [Ev (launch_request key_name instance_type sg_id) (Ok (i :: rest));
       Ev (WaitUntilRunning i) (Ok u);
       Ev (Load i) (Err (ClientError msg))]
      (Returned tt) fs
      (launched_lines i key_name instance_type sg_id ++
       ["Failed to launch instance: " +:+ msg])
| load_raised i rest u e :
    uncaught e ->
    launch_path key_name instance_type sg_id fs
      [Ev (launch_request key_name instance_type sg_id) (Ok (i :: rest));
       Ev (WaitUntilRunning i) (Ok u);
       Ev (Load i) (Err e)]
      (Raised e) fs (launched_lines i key_name instance_type sg_id)
| loaded_without_address i rest u d :
    truthy (public_ip_address d) = false ->
    launch_path key_name instance_type sg_id fs
      [Ev (launch_request key_name instance_type sg_id) (Ok (i :: rest));
       Ev (WaitUntilRunning i) (Ok u);
       Ev (Load i) (Ok d)]
      (Returned tt) fs
      (launched_lines i key_name instance_type sg_id ++
       ["Instance State: " +:+ Name (state d)] ++
       status_lines i)
| loaded_with_address i rest u d :
    truthy (public_ip_address d) = true ->
    launch_path key_name instance_type sg_id fs
      [Ev (launch_request key_name instance_type sg_id) (Ok (i :: rest));
       Ev (WaitUntilRunning i) (Ok u);
       Ev (Load i) (Ok d)]
      (Returned tt)
      (<["instance_connection.txt" :=
           report (instance_id i) (fmt (public_ip_address d)) key_name]> fs)
      (launched_lines i key_name instance_type sg_id ++
       ["Instance State: " +:+ Name (state d);
        "Public IP: " +:+ fmt (public_ip_address d)] ++
       instruction_lines key_name (public_ip_address d) ++
       [nl +:+ "Connection info saved to 'instance_connection.txt'"] ++
       status_lines i).

(** [main_run]: the paths of [main] with the launch spelled out. *)
Inductive main_run (fs : gmap string string) :
    list Event -> outcome unit -> gmap string string -> list string -> Prop :=
| run_without_key evs out :
    key_path key_name_of_main evs (Returned false) ->
    main_run fs evs (Returned tt) fs
      (out ++ ["Failed due to missing key pair. Exiting."])
| run_raised_in_key_check evs e out :
    key_path key_name_of_main evs (Raised e) ->
    main_run fs evs (Raised e) fs out
| run_raised_in_type_lookup evs1 evs2 e out :
    key_path key_name_of_main evs1 (Returned true) ->
    type_path evs2 (Raised e) ->
    main_run fs (evs1 ++ evs2) (Raised e) fs out
| run_raised_in_group_step evs1 evs2 ty evs3 e out :
    key_path key_name_of_main evs1 (Returned true) ->
    type_path evs2 (Returned ty) ->
    group_path evs3 (Raised e) ->
    main_run fs (evs1 ++ evs2 ++ evs3) (Raised e) fs out
| run_without_group evs1 evs2 ty evs3 sg out :
    key_path key_name_of_main evs1 (Returned true) ->
    type_path evs2 (Returned ty) ->
    group_path evs3 (Returned sg) ->
    truthy sg = false ->
    main_run fs (evs1 ++ evs2 ++ evs3) (Returned tt) fs
      (out ++ ["Failed to get a security group. Exiting."])
| run_launch evs1 evs2 ty evs3 sg evs4 o fs' out out' :
    key_path key_name_of_main evs1 (Returned true) ->
    type_path evs2 (Returned ty) ->
    group_path evs3 (Returned (Some sg)) ->
    truthy (Some sg) = true ->
    instructions_banner ∉ out ->
    launch_path key_name_of_main ty sg fs evs4 o fs' out' ->
    main_run fs (evs1 ++ evs2 ++ evs3 ++ evs4) o fs' (out ++ out').

(** ** Readings that the code does not meet

    Statements about the group step, written out so that they can be
    tested against a run. *)

(** Whenever the lookup is answered "not found" and the creation of the
    group succeeds, the new identifier is returned. *)
Definition created_group_is_returned {W} (aws : Provider W) (w : W)
    (fs : gmap string string) : Prop :=
  forall msg gid,
    let r := create_security_group aws (start w fs) in
    Ev group_lookup (Err (ClientError msg)) ∈ calls r.2 ->
    str_in "InvalidGroup.NotFound" msg = true ->
    Ev group_creation (Ok gid) ∈ calls r.2 ->
    r.1 = Returned (Some gid).

(** The "not found" condition of the group step: the lookup is answered
    with a client error whose text contains [InvalidGroup.NotFound]. *)
Definition not_found_condition (c : api) (e : exn) : Prop :=
  c = group_lookup /\
  exists msg, e = ClientError msg /\ str_in "InvalidGroup.NotFound" msg = true.

(** Every error of a group request other than the "not found" condition
    makes [create_security_group] return [None] and [main] return after
    the failure message. *)
Definition every_group_error_gives_None {W} (aws : Provider W) (w : W)
    (fs : gmap string string) : Prop :=
  forall c e,
    is_group_call c = true ->
    ~ not_found_condition c e ->
    (Ev c (Err e) ∈ calls (create_security_group aws (start w fs)).2 ->
     (create_security_group aws (start w fs)).1 = Returned None) /\
    (Ev c (Err e) ∈ calls (main aws (start w fs)).2 ->
     (main aws (start w fs)).1 = Returned tt /\
     last (stdout (main aws (start w fs)).2)
       = Some "Failed to get a security group. Exiting.").

(** The requests of the [try] block of [main] that boto3 answers with a
    [ClientError] on an error response: the launch and the load of the
    attributes.  (The waiter reports an error response as a [WaiterError].) *)
Definition is_create_or_load (c : api) : bool :=
  match c with
  | CreateInstances _ _ _ _ _ _ _ | Load _ => true
  | _ => false
  end.

(** ** A provider with injected answers

    [Faulty.handle] answers like [Sim.handle], except for the requests that
    the injected function answers itself. *)

Module Faulty.

Definition injection : Type := forall c : api, option (result (reply c)).

Definition handle : Provider (Sim.account * injection) :=
  fun c '(a, inject) =>
    match inject c with
    | Some r => (r, (a, inject))
    | None => let '(r, a') := Sim.handle c a in (r, (a', inject))
    end.

(** Every request for which [P] holds raises [e]. *)
Definition raising (P : api -> bool) (e : exn) : injection :=
  fun c => if P c then Some (Err e) else None.

(** The lookup of groups is answered with an empty list. *)
Definition empty_lookup : injection :=
  fun c =>
    match c as c0 return option (result (reply c0)) with
    | DescribeSecurityGroups _ => Some (Ok [])
    | _ => None
    end.

Definition is_rule_call (c : api) : bool :=
  match c with AuthorizeSecurityGroupIngress _ _ => true | _ => false end.

Definition is_wait_call (c : api) : bool :=
  match c with WaitUntilRunning _ => true | _ => false end.

Definition is_load_call (c : api) : bool :=
  match c with Load _ => true | _ => false end.

(** [Sim.handle] with every addition of a rule refused. *)
Definition rule_refused : Provider Sim.account :=
  fun c a =>
    match c as c0 return result (reply c0) * Sim.account with
    | AuthorizeSecurityGroupIngress _ _ =>
        (Err (ClientError Sim.not_authorized), a)
    | c0 => Sim.handle c0 a
    end.

Definition empty_address : Sim.account :=
  Sim.mkAccount ["my-python-key"] ["t2.micro"] ∅ false false (Some "") [].

Definition waiter_error : exn := OtherError "WaiterError: Max attempts exceeded".

Definition connection_error : exn :=
  OtherError "EndpointConnectionError: Could not connect to the endpoint URL".

End Faulty.

(** ** Equality of requests and log entries *)

#[global] Instance Filter_eq_dec : EqDecision Filter.
Proof. solve_decision. Defined.
#[global] Instance IpRange_eq_dec : EqDecision IpRange.
Proof. solve_decision. Defined.
#[global] Instance IpPermission_eq_dec : EqDecision IpPermission.
Proof. solve_decision. Defined.
#[global] Instance Tag_eq_dec : EqDecision Tag.
Proof. solve_decision. Defined.
#[global] Instance TagSpecification_eq_dec : EqDecision TagSpecification.
Proof. solve_decision. Defined.
#[global] Instance Instance_eq_dec : EqDecision Instance.
Proof. solve_decision. Defined.
#[global] Instance api_eq_dec : EqDecision api.
Proof. solve_decision. Defined.

Lemma Ev_call_eq c r c' r' : Ev c r = Ev c' r' -> c = c'.
Proof. intros H. exact (f_equal ev_call H). Qed.

Lemma Ev_reply_eq c (r r' : result (reply c)) : Ev c r = Ev c r' -> r = r'.
Proof.
  intros H.
  assert (existT c r = existT c r' :> { c : api & result (reply c) }) as He.
  { exact (f_equal (fun ev => existT (ev_call ev) (ev_reply ev)) H). }
  apply (Eqdep_dec.inj_pair2_eq_dec api api_eq_dec) in He. exact He.
Qed.

(** ** Running a script step by step *)

Ltac py_unfold :=
  unfold mbind, mret, py_bind, py_ret, bind, ret, raise, try_except_ClientError,
    request, print, os_path_exists, open_w, write, index0 in *.

(** Case analysis on what the provider answers to the next request. *)
Ltac answer aws :=
  match goal with
  | |- context [aws ?c ?w] =>
      let E := fresh "Haws" in
      destruct (aws c w) as [[?|[?| |?]] ?] eqn:E; simpl in *
  end.

(** Evaluation of the monad only: the strings, lists and maps that a script
    builds stay as they are written. *)
Ltac py_eval :=
  lazy beta iota zeta delta
    [mbind mret py_bind py_ret bind ret raise try_except_ClientError
     print os_path_exists open_w write index0 negb fst snd
     cloud files stdout calls].

Ltac py_eval_in E :=
  lazy beta iota zeta delta
    [mbind mret py_bind py_ret bind ret raise try_except_ClientError
     print os_path_exists open_w write index0 negb fst snd
     cloud files stdout calls] in E.

Ltac answer_in aws E :=
  match type of E with
  | context [aws ?c ?w] =>
      let Haws := fresh "Haws" in
      destruct (aws c w) as [[?|[?| |?]] ?] eqn:Haws; py_eval_in E
  end.

(** The end of a path of a script: its log and console are the initial ones
    with what the path appended. *)
Ltac appended :=
  py_eval; rewrite <- ?app_assoc; eexists _, _;
  split; [reflexivity|]; cbn [app];
  split; [repeat constructor|];
  split; [first [reflexivity | symmetry; apply app_nil_r]|].

(** Two equal log entries are the same request with the same answer. *)
Ltac same_entry H :=
  let Hc := fresh "Hc" in
  pose proof (Ev_call_eq _ _ _ _ H) as Hc;
  first [ discriminate Hc
        | injection Hc; intros; subst; apply Ev_reply_eq in H
        | subst; apply Ev_reply_eq in H
        | apply Ev_reply_eq in H ];
  try discriminate H; try (injection H; intros; subst).

(** An entry known to be in a log that is written out is one of its
    entries; entries of another request are ruled out. *)
Ltac log_entry H :=
  repeat (apply elem_of_cons in H as [H|H]; [ same_entry H | ]);
  try (apply elem_of_nil in H; destruct H).

(** A printed line that starts otherwise is not the banner. *)
Ltac not_banner :=
  repeat (apply not_elem_of_cons; split);
  try apply not_elem_of_nil;
  unfold instructions_banner, nl; discriminate.

Ltac confine :=
  simpl; rewrite <- ?app_assoc; simpl;
  refine (conj eq_refl (conj _ (conj _ (conj _ eq_refl))));
  [ repeat constructor | rewrite ?app_nil_r; reflexivity | not_banner ].

Lemma str_app_assoc (a b c : string) : (a +:+ b) +:+ c = a +:+ (b +:+ c).
Proof.
  induction a as [|x a IH]; [reflexivity|].
  change (String x ((a +:+ b) +:+ c) = String x (a +:+ (b +:+ c))).
  by rewrite IH.
Qed.

(** Operations on the working directory are kept folded while a script is
    run symbolically. *)
#[local] Arguments insert : simpl never.
#[local] Arguments alter : simpl never.
#[local] Arguments lookup : simpl never.

Section Steps.

Context {W : Type} (aws : Provider W).

Lemma check_key_pair_confined key_name :
  confined is_key_call (check_key_pair aws key_name).
Proof.
  intros [w fs out log]. unfold check_key_pair. py_unfold. simpl.
  answer aws.
  - case_bool_decide; simpl.
    + eexists [_], [_;_]. confine.
    + eexists [_], [_;_;_]. confine.
  - destruct (str_in _ _); simpl.
    + eexists [_], [_;_;_;_]. confine.
    + eexists [_], [_]. confine.
  - eexists [_], []. confine.
  - eexists [_], []. confine.
Qed.

Lemma get_free_tier_instance_type_confined :
  confined is_type_call (get_free_tier_instance_type aws).
Proof.
  intros [w fs out log]. unfold get_free_tier_instance_type. py_unfold. simpl.
  answer aws.
  - destruct v; simpl; eexists [_], [_]; confine.
  - eexists [_], [_]. confine.
  - eexists [_], []. confine.
  - eexists [_], []. confine.
Qed.

Lemma create_security_group_confined :
  confined is_group_call (create_security_group aws).
Proof.
  intros [w fs out log]. unfold create_security_group. py_unfold. simpl.
  answer aws.
  - destruct v; simpl; eexists [_], [_]; confine.
  - destruct (str_in _ _); simpl.
    + answer aws.
      * answer aws.
        -- eexists [_;_;_], [_;_;_]. confine.
        -- eexists [_;_;_], [_;_;_]. confine.
        -- eexists [_;_;_], [_;_]. confine.
        -- eexists [_;_;_], [_;_]. confine.
      * eexists [_;_], [_;_]. confine.
      * eexists [_;_], [_]. confine.
      * eexists [_;_], [_]. confine.
    + eexists [_], [_]. confine.
  - eexists [_], []. confine.
  - eexists [_], []. confine.
Qed.

Lemma check_key_pair_follows key_name :
  follows (key_path key_name) (check_key_pair aws key_name).
Proof.
  intros [w fs out log]. unfold check_key_pair. py_unfold. simpl.
  answer aws; eexists [_].
  - case_bool_decide; simpl; (split; [reflexivity|constructor]).
  - destruct (str_in _ _); simpl; (split; [reflexivity|constructor]).
  - split; [reflexivity|by constructor].
  - split; [reflexivity|by constructor].
Qed.

Lemma get_free_tier_instance_type_follows :
  follows type_path (get_free_tier_instance_type aws).
Proof.
  intros [w fs out log]. unfold get_free_tier_instance_type. py_unfold. simpl.
  answer aws; eexists [_].
  - destruct v; simpl; (split; [reflexivity|constructor]).
  - split; [reflexivity|constructor].
  - split; [reflexivity|by constructor].
  - split; [reflexivity|by constructor].
Qed.

Lemma create_security_group_follows :
  follows group_path (create_security_group aws).
Proof.
  intros [w fs out log]. unfold create_security_group. py_unfold. simpl.
  answer aws.
  - eexists [_]. destruct v; simpl; (split; [reflexivity|constructor]).
  - destruct (str_in _ _) eqn:Hnf; simpl.
    + answer aws.
      * answer aws; eexists [_;_;_]; rewrite <- !app_assoc;
          (split; [reflexivity|by constructor]).
      * eexists [_;_]; rewrite <- !app_assoc. split; [reflexivity|by constructor].
      * eexists [_;_]; rewrite <- !app_assoc. split; [reflexivity|by constructor].
      * eexists [_;_]; rewrite <- !app_assoc. split; [reflexivity|by constructor].
    + eexists [_]. split; [reflexivity|by constructor].
  - eexists [_]. split; [reflexivity|by constructor].
  - eexists [_]. split; [reflexivity|by constructor].
Qed.

(** With an address, the connection instructions are printed and their
    heading is on the console. *)
Lemma print_windows_connection_instructions_banner key_name public_ip
    (s : Env W) :
  truthy public_ip = true ->
  instructions_banner
    ∈ stdout (print_windows_connection_instructions key_name public_ip s).2.
Proof.
  intros Hip. destruct s as [w fs out log].
  unfold print_windows_connection_instructions. rewrite Hip. py_eval.
  rewrite <- !app_assoc. apply elem_of_app. right.
  apply list_elem_of_further, list_elem_of_here.
Qed.

(** The launch: its calls are those on instances, and once the attributes of
    the instance were loaded the rest of the run is fixed by the address. *)
Lemma launch_log key_name instance_type sg_id s :
  let r := launch aws key_name instance_type sg_id s in
  exists evs out,
    calls r.2 = calls s ++ evs /\
    Forall (fun ev => is_instance_call (ev_call ev) = true) evs /\
    stdout r.2 = stdout s ++ out /\
    forall i d, Ev (Load i) (Ok d) ∈ evs ->
      r.1 = Returned tt /\
      (truthy (public_ip_address d) = false ->
         files r.2 = files s /\ instructions_banner ∉ out) /\
      (truthy (public_ip_address d) = true ->
         files r.2 =
           <["instance_connection.txt" :=
               report (instance_id i) (fmt (public_ip_address d)) key_name]>
             (files s)).
Proof.
  destruct s as [w fs out log].
  intros r. remember r as r' eqn:E. subst r.
  unfold launch, print_windows_connection_instructions, request in E.
  py_eval_in E.
  answer_in aws E; [|subst r'; appended; intros i d H; log_entry H..].
  destruct v as [|instance rest]; py_eval_in E;
    [subst r'; appended; intros i d H; log_entry H|].
  answer_in aws E; [|subst r'; appended; intros i d H; log_entry H..].
  answer_in aws E; [|subst r'; appended; intros i d H; log_entry H..].
  match type of E with
  | context [truthy ?x] => destruct (truthy x) eqn:Hip; py_eval_in E
  end.
  - subst r'. appended. intros i d H. log_entry H.
    split; [reflexivity|]. split; [congruence|]. intros _.
    rewrite !alter_insert_eq. f_equal.
    unfold report, report_lines, unlines. cbn [foldr].
    by rewrite !str_app_assoc.
  - subst r'. appended. intros i d H. log_entry H.
    split; [reflexivity|]. split; [|congruence]. intros _.
    split; [reflexivity|]. cbn [app]. not_banner.
Qed.

(** A step that follows a path and is confined, run from any state. *)
Lemma step_run {A} (path : list Event -> outcome A -> Prop) (P : api -> bool)
    (m : Py W A) :
  follows path m -> confined P m ->
  forall w fs out log, exists evs out' o w',
    m (mkEnv w fs out log) = (o, mkEnv w' fs (out ++ out') (log ++ evs)) /\
    path evs o /\
    Forall (fun ev => P (ev_call ev) = true) evs /\
    instructions_banner ∉ out'.
Proof.
  intros Hf Hc w fs out log.
  destruct (Hf (mkEnv w fs out log)) as (evs & Hl & Hp).
  destruct (Hc (mkEnv w fs out log)) as (evs' & out' & Hl' & HP & Ho & Hb & Hfs).
  destruct (m (mkEnv w fs out log)) as [o [w' fs' out1 log1]].
  simpl in *. subst.
  apply app_inv_head in Hl' as <-.
  by exists evs, out', o, w'.
Qed.

Lemma launch_run key_name instance_type sg_id w fs out log :
  exists evs out' o w' fs',
    launch aws key_name instance_type sg_id (mkEnv w fs out log)
    = (o, mkEnv w' fs' (out ++ out') (log ++ evs)) /\
    Forall (fun ev => is_instance_call (ev_call ev) = true) evs /\
    forall i d, Ev (Load i) (Ok d) ∈ evs ->
      o = Returned tt /\
      (truthy (public_ip_address d) = false ->
         fs' = fs /\ instructions_banner ∉ out') /\
      (truthy (public_ip_address d) = true ->
         fs' = <["instance_connection.txt" :=
                   report (instance_id i) (fmt (public_ip_address d)) key_name]>
                 fs).
Proof.
  destruct (launch_log key_name instance_type sg_id (mkEnv w fs out log))
    as (evs & out' & Hl & HP & Ho & H).
  destruct (launch aws key_name instance_type sg_id (mkEnv w fs out log))
    as [o [w' fs' out1 log1]].
  simpl in *. subst. by exists evs, out', o, w', fs'.
Qed.

Lemma main_path_eq fs evs o fs' out evs' out' :
  main_path fs evs o fs' out -> evs = evs' -> out = out' ->
  main_path fs evs' o fs' out'.
Proof. by intros ? <- <-. Qed.

(** Every run of [main] is one of its paths. *)
Lemma main_follows w fs :
  let r := main aws (start w fs) in
  main_path fs (calls r.2) r.1 (files r.2) (stdout r.2).
Proof.
  intros r. remember r as r' eqn:E. subst r.
  unfold main, start in E. py_eval_in E. cbn [app] in E.
  match type of E with
  | context [check_key_pair aws ?k (mkEnv ?w0 ?fs0 ?out0 ?log0)] =>
      destruct (step_run _ _ _ (check_key_pair_follows k)
                  (check_key_pair_confined k) w0 fs0 out0 log0)
        as (evs1 & out1 & o1 & w1 & Heq & Hp1 & _ & Hb1);
      rewrite Heq in E; clear Heq; py_eval_in E; cbn [app] in E
  end.
  assert (instructions_banner ∉
            [str_mul "=" 60; "EC2 Instance Creator with Free-Tier Detection";
             str_mul "=" 60] ++ out1) as Hb1'.
  { apply not_elem_of_app. split; [not_banner|done]. }
  destruct o1 as [[|]|e]; py_eval_in E;
    [ | subst r'; by constructor | subst r'; by constructor ].
  match type of E with
  | context [get_free_tier_instance_type aws (mkEnv ?w0 ?fs0 ?out0 ?log0)] =>
      destruct (step_run _ _ _ get_free_tier_instance_type_follows
                  get_free_tier_instance_type_confined w0 fs0 out0 log0)
        as (evs2 & out2 & o2 & w2 & Heq & Hp2 & _ & Hb2);
      rewrite Heq in E; clear Heq; py_eval_in E
  end.
  destruct o2 as [ty|e]; py_eval_in E;
    [ | subst r'; constructor; [done..|]; by apply not_elem_of_app ].
  match type of E with
  | context [create_security_group aws (mkEnv ?w0 ?fs0 ?out0 ?log0)] =>
      destruct (step_run _ _ _ create_security_group_follows
                  create_security_group_confined w0 fs0 out0 log0)
        as (evs3 & out3 & o3 & w3 & Heq & Hp3 & _ & Hb3);
      rewrite Heq in E; clear Heq; py_eval_in E
  end.
  assert (instructions_banner ∉
            (([str_mul "=" 60; "EC2 Instance Creator with Free-Tier Detection";
               str_mul "=" 60] ++ out1) ++ out2) ++ out3) as Hb3'.
  { apply not_elem_of_app. split; [|done]. by apply not_elem_of_app. }
  destruct o3 as [[sg|]|e]; py_eval_in E.
  - destruct (truthy (Some sg)) eqn:Hsg; py_eval_in E.
    + match type of E with
      | context [launch aws ?k ?t ?g (mkEnv ?w0 ?fs0 ?out0 ?log0)] =>
          destruct (launch_run k t g w0 fs0 out0 log0)
            as (evs4 & out4 & o4 & w4 & fs4 & Heq & HP4 & H4);
          rewrite Heq in E; clear Heq
      end.
      subst r'. py_eval.
      eapply main_path_eq;
        [ by eapply (launched _ evs1 evs2 ty evs3 sg evs4)
        | by rewrite <- !app_assoc | reflexivity ].
    + subst r'. py_eval.
      eapply main_path_eq;
        [ by eapply (stopped_without_group _ evs1 evs2 ty evs3 (Some sg))
        | by rewrite <- !app_assoc | reflexivity ].
  - subst r'. py_eval.
    eapply main_path_eq;
      [ by eapply (stopped_without_group _ evs1 evs2 ty evs3 None)
      | by rewrite <- !app_assoc | reflexivity ].
  - subst r'. py_eval.
    eapply main_path_eq;
      [ by eapply (raised_in_group_step _ evs1 evs2 ty evs3)
      | by rewrite <- !app_assoc | reflexivity ].
Qed.

End Steps.

(** ** What a path can contain *)

Lemma key_path_calls key_name evs o :
  key_path key_name evs o ->
  Forall (fun ev => is_key_call (ev_call ev) = true) evs.
Proof. destruct 1; repeat constructor. Qed.

Lemma type_path_calls evs o :
  type_path evs o -> Forall (fun ev => is_type_call (ev_call ev) = true) evs.
Proof. destruct 1; repeat constructor. Qed.

Lemma group_path_calls evs o :
  group_path evs o -> Forall (fun ev => is_group_call (ev_call ev) = true) evs.
Proof. destruct 1; repeat constructor. Qed.

Lemma kind_of_entry (P : api -> bool) (evs : list Event) (ev : Event) :
  Forall (fun ev => P (ev_call ev) = true) evs -> ev ∈ evs ->
  P (ev_call ev) = true.
Proof. intros HP Hin. by apply (proj1 (Forall_forall _ _) HP). Qed.

(** An entry of the log of a run of [main] belongs to the step that issues
    requests of its kind. *)
Ltac wrong_step :=
  match goal with
  | Hp : key_path _ ?evs _, H : _ ∈ ?evs |- _ =>
      apply (kind_of_entry _ _ _ (key_path_calls _ _ _ Hp)) in H; discriminate H
  | Hp : type_path ?evs _, H : _ ∈ ?evs |- _ =>
      apply (kind_of_entry _ _ _ (type_path_calls _ _ Hp)) in H; discriminate H
  | Hp : group_path ?evs _, H : _ ∈ ?evs |- _ =>
      apply (kind_of_entry _ _ _ (group_path_calls _ _ Hp)) in H; discriminate H
  | HP : Forall _ ?evs, H : _ ∈ ?evs |- _ =>
      apply (kind_of_entry _ _ _ HP) in H; discriminate H
  end.

Ltac find_step H :=
  repeat (apply elem_of_app in H as [H|H]; [try wrong_step|]);
  try wrong_step.

Lemma group_path_refused evs o :
  group_path evs o -> group_step_refused evs -> o = Returned None.
Proof.
  intros Hp [(msg & H & Hnf)|[(msg & H)|(gid & perms & msg & H)]];
    destruct Hp; log_entry H; try reflexivity; try congruence;
    by match goal with Hu : uncaught _ |- _ => destruct Hu end.
Qed.

Lemma setup_is_not_launch (c : api) :
  is_key_call c = true \/ is_type_call c = true \/ is_group_call c = true ->
  is_launch c = false.
Proof. by destruct c; intros [?|[?|?]]. Qed.

Lemma for_each_prints {W A} (body : A -> Py W unit) (line : A -> string)
    (xs : list A) w fs out log :
  (forall x, body x = print (line x)) ->
  for_each xs body (mkEnv w fs out log)
  = (Returned tt, mkEnv w fs (out ++ (line <$> xs)) log).
Proof.
  intros Hbody. revert out.
  induction xs as [|x xs IH]; intros out; cbn [for_each fmap list_fmap].
  - by rewrite app_nil_r.
  - py_eval. rewrite Hbody. py_eval. rewrite IH.
    by rewrite <- app_assoc.
Qed.

Lemma for_each_for_each_prints {W A B} (body : A -> Py W unit)
    (inner : A -> list B) (line : B -> string) (xs : list A) w fs out log :
  (forall x, body x = for_each (inner x) (fun y => print (line y))) ->
  for_each xs body (mkEnv w fs out log)
  = (Returned tt, mkEnv w fs (out ++ (line <$> concat (inner <$> xs))) log).
Proof.
  intros Hbody. revert out.
  induction xs as [|x xs IH]; intros out;
    cbn [for_each fmap list_fmap concat].
  - by rewrite app_nil_r.
  - py_eval. rewrite Hbody, (for_each_prints _ line); [|done]. py_eval.
    rewrite IH. by rewrite fmap_app, app_assoc.
Qed.

Section Claims.

Context {W : Type} (aws : Provider W).

(** C3.  When the lookup of a key pair is answered with an error whose text
    contains [InvalidKeyPair.NotFound], [check_key_pair] returns [False];
    and a run of [main] in which the lookup of its key pair is answered so
    returns after that single request: no type lookup, no group request, no
    launch, and the working directory is as it was. *)
Theorem check_key_pair_not_found (w : W) (fs : gmap string string) :
  (forall key_name msg,
     let r := check_key_pair aws key_name (start w fs) in
     Ev (DescribeKeyPairs [key_name]) (Err (ClientError msg)) ∈ calls r.2 ->
     str_in "InvalidKeyPair.NotFound" msg = true ->
     r.1 = Returned false) /\
  (forall msg,
     let m := main aws (start w fs) in
     Ev (DescribeKeyPairs ["my-python-key"]) (Err (ClientError msg)) ∈ calls m.2 ->
     str_in "InvalidKeyPair.NotFound" msg = true ->
     m.1 = Returned tt /\
     requests m.2 = [DescribeKeyPairs ["my-python-key"]] /\
     files m.2 = fs /\
     last (stdout m.2) = Some "Failed due to missing key pair. Exiting.").
Proof.
  split.
  - intros key_name msg r H _. subst r.
    destruct (check_key_pair_follows aws key_name (start w fs)) as (evs & Hl & Hp).
    rewrite Hl in H. cbn [start calls app] in H.
    destruct Hp; log_entry H; [reflexivity|].
    by match goal with Hu : uncaught _ |- _ => destruct Hu end.
  - intros msg m H _. subst m.
    pose proof (main_follows aws w fs) as Hm. cbv zeta in Hm.
    unfold requests.
    destruct (main aws (start w fs)) as [o [w' fs' out log]].
    cbn [fst snd calls files stdout] in *.
    destruct Hm as [evs out Hk _|evs e out Hk _|evs1 evs2 e out Hk|
                    evs1 evs2 ty evs3 e out Hk|evs1 evs2 ty evs3 sg out Hk|
                    evs1 evs2 ty evs3 sg evs4 o fs' out out' Hk].
    + inversion Hk; subst. rewrite last_snoc. done.
    + inversion Hk; subst. log_entry H.
      by match goal with Hu : uncaught _ |- _ => destruct Hu end.
    + find_step H. inversion Hk; subst. log_entry H.
    + find_step H. inversion Hk; subst. log_entry H.
    + find_step H. inversion Hk; subst. log_entry H.
    + find_step H. inversion Hk; subst. log_entry H.
Qed.




(** C2.  The type lookup issues one capability query.  If it is answered
    with a non-empty list, the identifier of the first entry is returned as
    it is; if it is answered with the empty list or with a client error, the
    literal ['t3.micro'] is returned. *)
Theorem get_free_tier_instance_type_selects (w : W) (fs : gmap string string) :
  let r := get_free_tier_instance_type aws (start w fs) in
  requests r.2 = [free_tier_query 5] /\
  (forall t ts, Ev (free_tier_query 5) (Ok (t :: ts)) ∈ calls r.2 ->
                r.1 = Returned (InstanceType t)) /\
  (Ev (free_tier_query 5) (Ok []) ∈ calls r.2 -> r.1 = Returned "t3.micro") /\
  (forall msg, Ev (free_tier_query 5) (Err (ClientError msg)) ∈ calls r.2 ->
               r.1 = Returned "t3.micro").
Proof.
  intros r. subst r. unfold requests.
  destruct (get_free_tier_instance_type_follows aws (start w fs))
    as (evs & Hl & Hp).
  rewrite Hl. cbn [start calls app].
  destruct Hp; (split; [reflexivity|]); repeat split;
    intros; repeat match goal with H : _ ∈ _ |- _ => log_entry H end;
    try reflexivity;
    by match goal with Hu : uncaught _ |- _ => destruct Hu end.
Qed.

(** C4, as amended.  In a run of [create_security_group] in which the
    lookup of ['python-sg-for-ssh'] is answered "not found" and no other
    request fails (the creation and the addition of the rule both
    succeed), three requests are issued: the lookup, the creation of the
    group with the fixed description, and the addition to the new group of
    one rule, TCP from port 22 to port 22 for [0.0.0.0/0]; the identifier
    that the creation returned is the result.  In terms of the provider's
    answers: a lookup answered "not found", a creation answered with an
    identifier and a rule accepted for that identifier make the call return
    the identifier after these three requests and three lines, the files
    untouched. *)
Theorem create_security_group_creates (w : W) (fs : gmap string string) :
  (let r := create_security_group aws (start w fs) in
   forall msg,
     Ev group_lookup (Err (ClientError msg)) ∈ calls r.2 ->
     str_in "InvalidGroup.NotFound" msg = true ->
     (forall c e, Ev c (Err e) ∈ calls r.2 -> c = group_lookup) ->
     exists gid,
       Ev group_creation (Ok gid) ∈ calls r.2 /\
       requests r.2 =
         [ DescribeSecurityGroups ["python-sg-for-ssh"];
           CreateSecurityGroup "python-sg-for-ssh"
             "Security group for EC2 instance created via Python";
           AuthorizeSecurityGroupIngress gid
             [ {| IpProtocol := "tcp"; FromPort := 22; ToPort := 22;
                  IpRanges := [ {| CidrIp := "0.0.0.0/0" |} ] |} ] ] /\
       r.1 = Returned (Some gid)) /\
  (forall msg gid,
     (aws group_lookup w).1 = Err (ClientError msg) ->
     str_in "InvalidGroup.NotFound" msg = true ->
     (aws group_creation (aws group_lookup w).2).1 = Ok gid ->
     (aws (AuthorizeSecurityGroupIngress gid [ssh_rule])
          (aws group_creation (aws group_lookup w).2).2).1 = Ok tt ->
     let r := create_security_group aws (start w fs) in
     r.1 = Returned (Some gid) /\
     requests r.2 =
       [ DescribeSecurityGroups ["python-sg-for-ssh"];
         CreateSecurityGroup "python-sg-for-ssh"
           "Security group for EC2 instance created via Python";
         AuthorizeSecurityGroupIngress gid
           [ {| IpProtocol := "tcp"; FromPort := 22; ToPort := 22;
                IpRanges := [ {| CidrIp := "0.0.0.0/0" |} ] |} ] ] /\
     stdout r.2 = [ "Creating new security group: 'python-sg-for-ssh'";
                    "Security Group Created: " +:+ gid;
                    "SSH rule added (Port 22 open to world)." ] /\
     files r.2 = fs).
Proof.
  split.
  - intros r msg. subst r. unfold requests.
    destruct (create_security_group_follows aws (start w fs)) as (evs & Hl & Hp).
    rewrite Hl. cbn [start calls app]. intros H Hnf Hall.
    destruct Hp; log_entry H; try congruence.
    + by match goal with Hu : uncaught _ |- _ => destruct Hu end.
    + exists gid. split; [|done]. apply list_elem_of_further, list_elem_of_here.
    + assert (group_creation = group_lookup) as Hx; [|discriminate Hx].
      eapply Hall. apply list_elem_of_further, list_elem_of_here.
    + assert (group_creation = group_lookup) as Hx; [|discriminate Hx].
      eapply Hall. apply list_elem_of_further, list_elem_of_here.
    + assert (AuthorizeSecurityGroupIngress gid [ssh_rule] = group_lookup) as Hx;
        [|discriminate Hx].
      eapply Hall.
      apply list_elem_of_further, list_elem_of_further, list_elem_of_here.
    + assert (AuthorizeSecurityGroupIngress gid [ssh_rule] = group_lookup) as Hx;
        [|discriminate Hx].
      eapply Hall.
      apply list_elem_of_further, list_elem_of_further, list_elem_of_here.
  - intros msg gid Hanswer Hnf. revert Hanswer.
    unfold create_security_group, request, start, requests, group_lookup,
      group_creation, ssh_rule.
    py_eval.
    destruct (aws (DescribeSecurityGroups ["python-sg-for-ssh"]) w)
      as [[gs|e] w1]; cbn [fst snd]; [discriminate|intros [= ->]].
    intros Hcreation. py_eval. rewrite Hnf. py_eval.
    destruct (aws (CreateSecurityGroup _ _) w1) as [[gid'|e] w2];
      cbn [fst snd] in Hcreation |- *;
      [injection Hcreation as ->|discriminate].
    intros Hrule. py_eval.
    destruct (aws (AuthorizeSecurityGroupIngress _ _) w2) as [[u|e] w3];
      cbn [fst] in Hrule; [|discriminate].
    py_eval. done.
Qed.

(** C7, as amended.  When the group step is refused (the lookup is answered
    with a client error other than "not found", or the creation or the
    addition of the rule is answered with a client error),
    [create_security_group] returns [None]; and a run of [main] in which
    this happens prints the failure message last, returns, and issues no
    request to launch an instance.  In terms of the provider's answers: a
    lookup answered with such a client error makes the call return [None]
    after that one request and one line; a lookup answered "not found"
    followed by a creation answered with a client error makes it return
    [None] after these two requests. *)
Theorem create_security_group_refused (w : W) (fs : gmap string string) :
  (let r := create_security_group aws (start w fs) in
   group_step_refused (calls r.2) -> r.1 = Returned None) /\
  (let m := main aws (start w fs) in
   group_step_refused (calls m.2) ->
   m.1 = Returned tt /\
   last (stdout m.2) = Some "Failed to get a security group. Exiting." /\
   forall c, c ∈ requests m.2 -> is_launch c = false) /\
  (forall msg,
     (aws group_lookup w).1 = Err (ClientError msg) ->
     str_in "InvalidGroup.NotFound" msg = false ->
     let r := create_security_group aws (start w fs) in
     r.1 = Returned None /\
     requests r.2 = [group_lookup] /\
     stdout r.2 = ["Error checking for security group: " +:+ msg] /\
     files r.2 = fs) /\
  (forall msg msg',
     (aws group_lookup w).1 = Err (ClientError msg) ->
     str_in "InvalidGroup.NotFound" msg = true ->
     (aws group_creation (aws group_lookup w).2).1 = Err (ClientError msg') ->
     let r := create_security_group aws (start w fs) in
     r.1 = Returned None /\
     requests r.2 = [group_lookup; group_creation] /\
     stdout r.2 = [ "Creating new security group: 'python-sg-for-ssh'";
                    "Error creating security group: " +:+ msg' ] /\
     files r.2 = fs).
Proof.
  split; [|split; [|split]].
  - intros r. subst r.
    destruct (create_security_group_follows aws (start w fs)) as (evs & Hl & Hp).
    rewrite Hl. cbn [start calls app]. by apply group_path_refused.
  - intros m H. subst m.
    pose proof (main_follows aws w fs) as Hm. cbv zeta in Hm.
    unfold requests.
    destruct (main aws (start w fs)) as [o [w' fs' out log]].
    cbn [fst snd calls files stdout] in *.
    assert (forall evs1 evs2 evs3 evs4 o1 o2 o3,
              key_path key_name_of_main evs1 o1 -> type_path evs2 o2 ->
              group_path evs3 o3 ->
              Forall (fun ev => is_instance_call (ev_call ev) = true) evs4 ->
              group_step_refused (evs1 ++ evs2 ++ evs3 ++ evs4) ->
              o3 = Returned None) as Hrefused.
    { intros evs1 evs2 evs3 evs4 o1 o2 o3 Hk Ht Hg HP4 Hr.
      apply (group_path_refused evs3); [done|].
      destruct Hr as [(msg & Hin & Hnf)|[(msg & Hin)|(gid & perms & msg & Hin)]];
        find_step Hin; [left|right; left|right; right]; eauto. }
    destruct Hm as [evs out Hk _|evs e out Hk _|evs1 evs2 e out Hk Ht|
                    evs1 evs2 ty evs3 e out Hk Ht Hg|
                    evs1 evs2 ty evs3 sg out Hk Ht Hg|
                    evs1 evs2 ty evs3 sg evs4 o fs' out out' Hk Ht Hg Hsg Hb HP4].
    + destruct H as [(msg & Hin & Hnf)|[(msg & Hin)|(gid & perms & msg & Hin)]];
        wrong_step.
    + destruct H as [(msg & Hin & Hnf)|[(msg & Hin)|(gid & perms & msg & Hin)]];
        wrong_step.
    + destruct H as [(msg & Hin & Hnf)|[(msg & Hin)|(gid & perms & msg & Hin)]];
        find_step Hin.
    + specialize (Hrefused evs1 evs2 evs3 [] _ _ _ Hk Ht Hg (Forall_nil_2 _)).
      rewrite app_nil_r in Hrefused. by specialize (Hrefused H).
    + specialize (Hrefused evs1 evs2 evs3 [] _ _ _ Hk Ht Hg (Forall_nil_2 _)).
      rewrite app_nil_r in Hrefused. specialize (Hrefused H).
      split; [done|]. split; [by rewrite last_snoc|].
      intros c Hc. apply setup_is_not_launch.
      apply list_elem_of_fmap in Hc as (ev & -> & Hev).
      apply elem_of_app in Hev as [Hev|Hev];
        [|apply elem_of_app in Hev as [Hev|Hev]].
      * left. exact (kind_of_entry _ _ _ (key_path_calls _ _ _ Hk) Hev).
      * right; left. exact (kind_of_entry _ _ _ (type_path_calls _ _ Ht) Hev).
      * right; right. exact (kind_of_entry _ _ _ (group_path_calls _ _ Hg) Hev).
    + by specialize (Hrefused evs1 evs2 evs3 evs4 _ _ _ Hk Ht Hg HP4 H).
  - intros msg Hanswer Hnf r. subst r. revert Hanswer.
    unfold create_security_group, request, start, requests, group_lookup.
    py_eval.
    destruct (aws (DescribeSecurityGroups ["python-sg-for-ssh"]) w)
      as [[gs|e] w1]; cbn [fst]; [discriminate|intros [= ->]].
    py_eval. rewrite Hnf. py_eval. done.
  - intros msg msg' Hanswer Hnf. revert Hanswer.
    unfold create_security_group, request, start, requests, group_lookup,
      group_creation.
    py_eval.
    destruct (aws (DescribeSecurityGroups ["python-sg-for-ssh"]) w)
      as [[gs|e] w1]; cbn [fst snd]; [discriminate|intros [= ->]].
    intros Hcreation. py_eval. rewrite Hnf. py_eval.
    destruct (aws _ w1) as [[gid|e] w2]; cbn [fst] in Hcreation;
      [discriminate|injection Hcreation as ->].
    py_eval. done.
Qed.

(** C5.  In a run of [main] in which the instance is created, the wait for
    the running state returns and the loaded attributes hold no public
    address, the working directory is left as it was (the report file among
    the rest) and the heading of the connection instructions is not
    printed.  [print_windows_connection_instructions] itself returns at
    once, with no effect, when the address is absent. *)
Theorem main_without_public_address (w : W) (fs : gmap string string) :
  (forall image_id n m ty key sgs tags i rest d,
     let r := main aws (start w fs) in
     Ev (CreateInstances image_id n m ty key sgs tags) (Ok (i :: rest)) ∈ calls r.2 ->
     Ev (WaitUntilRunning i) (Ok tt) ∈ calls r.2 ->
     Ev (Load i) (Ok d) ∈ calls r.2 ->
     public_ip_address d = None ->
     r.1 = Returned tt /\
     files r.2 = fs /\
     instructions_banner ∉ stdout r.2) /\
  (forall key_name (s : Env W),
     print_windows_connection_instructions key_name None s = (Returned tt, s)).
Proof.
  split; [|reflexivity].
  intros image_id n m ty key sgs tags i rest d r _ _ H Hip. subst r.
  pose proof (main_follows aws w fs) as Hm. cbv zeta in Hm.
  destruct (main aws (start w fs)) as [o [w' fs' out log]].
  cbn [fst snd calls files stdout] in *.
  destruct Hm as [evs out Hk _|evs e out Hk _|evs1 evs2 e out Hk Ht|
                  evs1 evs2 ty' evs3 e out Hk Ht Hg|
                  evs1 evs2 ty' evs3 sg out Hk Ht Hg|
                  evs1 evs2 ty' evs3 sg evs4 o fs' out out' Hk Ht Hg Hsg Hb HP4 H4];
    find_step H.
  destruct (H4 i d H) as (-> & Hnone & _).
  destruct Hnone as [-> Hb']; [by rewrite Hip|].
  split; [done|]. split; [done|]. by apply not_elem_of_app.
Qed.

(** C6.  In a run of [main] in which the wait for the running state returns
    and the loaded attributes hold a public address, the file
    [instance_connection.txt] holds, whatever it held before, exactly the
    four lines of the report: instance identifier, address, key file of
    ['my-python-key'], and connection target. *)
Theorem main_writes_report (w : W) (fs : gmap string string) :
  forall i d ip,
    let r := main aws (start w fs) in
    Ev (WaitUntilRunning i) (Ok tt) ∈ calls r.2 ->
    Ev (Load i) (Ok d) ∈ calls r.2 ->
    public_ip_address d = Some ip ->
    ip <> "" ->
    files r.2 !! "instance_connection.txt" =
      Some (unlines [ "Instance ID: " +:+ instance_id i;
                      "Public IP: " +:+ ip;
                      "Key Pair: my-python-key.pem";
                      "Connect: ec2-user@" +:+ ip ]) /\
    (forall path, path <> "instance_connection.txt" ->
                  files r.2 !! path = fs !! path).
Proof.
  intros i d ip r _ H Hip Hne. subst r.
  pose proof (main_follows aws w fs) as Hm. cbv zeta in Hm.
  destruct (main aws (start w fs)) as [o [w' fs' out log]].
  cbn [fst snd calls files stdout] in *.
  destruct Hm as [evs out Hk _|evs e out Hk _|evs1 evs2 e out Hk Ht|
                  evs1 evs2 ty' evs3 e out Hk Ht Hg|
                  evs1 evs2 ty' evs3 sg out Hk Ht Hg|
                  evs1 evs2 ty' evs3 sg evs4 o fs' out out' Hk Ht Hg Hsg Hb HP4 H4];
    find_step H.
  destruct (H4 i d H) as (_ & _ & Hsome).
  rewrite Hsome.
  - split; [by rewrite Hip, lookup_insert_eq|].
    intros path Hpath. by rewrite lookup_insert_ne.
  - rewrite Hip. cbn [truthy]. by apply negb_true_iff, String.eqb_neq.
Qed.

(** C9.  The Lister issues one request.  When it is answered with a list of
    reservations, the console holds the two heading lines and then one line
    for every instance of every reservation, in the order of the answer;
    the line of an instance is its identifier, the name of its state and
    its type, separated by tabs. *)
Theorem list_ec2_prints_every_instance (w : W) (fs : gmap string string) :
  forall reservations,
    let r := list_ec2 aws (start w fs) in
    Ev DescribeInstances (Ok reservations) ∈ calls r.2 ->
    r.1 = Returned tt /\
    requests r.2 = [DescribeInstances] /\
    stdout r.2 =
      [ "Instance ID" +:+ tab +:+ tab +:+ "State" +:+ tab +:+ tab +:+ "Type";
        "----------------------------------------------" ] ++
      ((fun i => InstanceId i +:+ tab +:+ Name (State i) +:+ tab +:+ tab +:+
                 desc_InstanceType i)
         <$> concat (Instances <$> reservations)).
Proof.
  intros reservations r. subst r.
  unfold list_ec2, request, start, requests. py_eval.
  destruct (aws DescribeInstances w) as [[v|e] w']; py_eval; cbn [app].
  - erewrite (for_each_for_each_prints _ Instances); [|reflexivity]. py_eval.
    intros H. log_entry H. done.
  - intros H. log_entry H.
Qed.

(** A call of [create_security_group] that returns an identifier leaves an
    account in which the group name is registered with that identifier. *)
Lemma create_security_group_registers
    (registered : W -> string -> option string) (w : W) fs gid :
  tracks_groups aws registered ->
  (create_security_group aws (start w fs)).1 = Returned (Some gid) ->
  registered (cloud (create_security_group aws (start w fs)).2)
    "python-sg-for-ssh" = Some gid.
Proof.
  intros Htr.
  unfold create_security_group, request, start. py_eval.
  pose proof (lookup_sound _ _ Htr w "python-sg-for-ssh") as Hsound.
  pose proof (lookup_pure _ _ Htr w ["python-sg-for-ssh"] "python-sg-for-ssh")
    as Hpure.
  destruct (aws (DescribeSecurityGroups ["python-sg-for-ssh"]) w)
    as [[gs|[msg| |msg]] w1]; py_eval; try discriminate.
  - destruct gs as [|g gs]; py_eval; [discriminate|].
    intros [= <-]. cbn [fst snd] in *. rewrite Hpure. by eapply Hsound.
  - destruct (str_in _ _); py_eval; [|discriminate].
    match goal with
    | |- context [aws (CreateSecurityGroup ?n ?d) w1] =>
        pose proof (create_registers _ _ Htr w1 n d) as Hcreate;
        destruct (aws (CreateSecurityGroup n d) w1)
          as [[gid'|[msg'| |msg']] w2]; py_eval; try discriminate
    end.
    match goal with
    | |- context [aws (AuthorizeSecurityGroupIngress ?g ?ps) w2] =>
        pose proof (authorize_keeps _ _ Htr w2 g ps "python-sg-for-ssh")
          as Hkeep;
        destruct (aws (AuthorizeSecurityGroupIngress g ps) w2)
          as [[u|[msg'| |msg']] w3]; py_eval; try discriminate
    end.
    intros [= <-]. cbn [fst snd] in *. rewrite Hkeep. by apply Hcreate.
Qed.

(** C1.  Over a provider that keeps a registry of group names: in an account
    where ['python-sg-for-ssh'] is registered, [create_security_group]
    returns the registered identifier and its only request is the lookup
    (it creates no group and adds no rule), and the registration stands;
    and after a call that returned an identifier, a second call returns the
    same identifier, again with the lookup as its only request. *)
Theorem create_security_group_idempotent
    (registered : W -> string -> option string) :
  tracks_groups aws registered ->
  (forall w fs gid,
     registered w "python-sg-for-ssh" = Some gid ->
     let r := create_security_group aws (start w fs) in
     r.1 = Returned (Some gid) /\
     requests r.2 = [group_lookup] /\
     registered (cloud r.2) "python-sg-for-ssh" = Some gid) /\
  (forall w fs fs' gid,
     let first := create_security_group aws (start w fs) in
     first.1 = Returned (Some gid) ->
     let second := create_security_group aws (start (cloud first.2) fs') in
     second.1 = Returned (Some gid) /\
     requests second.2 = [group_lookup]).
Proof.
  intros Htr.
  assert (forall w fs gid,
     registered w "python-sg-for-ssh" = Some gid ->
     let r := create_security_group aws (start w fs) in
     r.1 = Returned (Some gid) /\
     requests r.2 = [group_lookup] /\
     registered (cloud r.2) "python-sg-for-ssh" = Some gid) as Hreuse.
  { intros w fs gid Hreg r. subst r.
    destruct (lookup_found _ _ Htr _ _ _ Hreg) as (g & gs & Hfound & <-).
    pose proof (lookup_pure _ _ Htr w ["python-sg-for-ssh"] "python-sg-for-ssh")
      as Hpure.
    unfold create_security_group, request, start, requests. py_eval.
    destruct (aws (DescribeSecurityGroups ["python-sg-for-ssh"]) w) as [r w1].
    cbn [fst snd] in *. subst r. py_eval.
    split; [done|]. split; [done|]. by rewrite Hpure. }
  split; [exact Hreuse|].
  intros w fs fs' gid first Hfirst second. subst first second.
  apply create_security_group_registers with (registered := registered)
    in Hfirst; [|done].
  destruct (Hreuse _ fs' _ Hfirst) as (? & ? & _). done.
Qed.

(** C10, as amended.  Over a provider that answers a capability query with
    the first [MaxResults] of its eligible types: the type lookup issues
    one query, with [MaxResults = 5].  When it is answered with a non-empty
    list, the selected type is the first of the eligible types, which is
    one of the first five; when it is answered with the empty list (there
    is no eligible type) or with a client error, the selected type is the
    fallback ['t3.micro']. *)
Theorem free_tier_query_limit (eligible : W -> list InstanceTypeInfo) :
  honours_MaxResults aws eligible ->
  forall w fs,
    let r := get_free_tier_instance_type aws (start w fs) in
    requests r.2 = [free_tier_query 5] /\
    (forall t ts,
       (aws (free_tier_query 5) w).1 = Ok (t :: ts) ->
       r.1 = Returned (InstanceType t) /\
       head (eligible w) = Some t /\
       t ∈ take 5 (eligible w)) /\
    ((aws (free_tier_query 5) w).1 = Ok [] ->
     r.1 = Returned "t3.micro" /\ eligible w = []) /\
    (forall msg,
       (aws (free_tier_query 5) w).1 = Err (ClientError msg) ->
       r.1 = Returned "t3.micro").
Proof.
  intros Hmax w fs r. subst r.
  specialize (Hmax w 5).
  unfold get_free_tier_instance_type, request, start, requests.
  unfold free_tier_query in *. py_eval.
  destruct (aws _ w) as [[ts|[msg| |msg]] w1]; cbn [fst] in *; py_eval.
  - specialize (Hmax ts eq_refl).
    destruct ts as [|t ts]; py_eval; (split; [done|]);
      (split; [|split]); try discriminate.
    + intros _. split; [done|].
      destruct (eligible w); [done|discriminate].
    + intros t' ts' [= <- <-]. split; [done|]. split.
      * destruct (eligible w); [discriminate|]. by injection Hmax as -> _.
      * change (t ∈ take (Z.to_nat 5) (eligible w)). rewrite <- Hmax. by left.
  - split; [done|]. split; [|split]; try discriminate. done.
  - split; [done|]. split; [|split]; discriminate.
  - split; [done|]. split; [|split]; discriminate.
Qed.

End Claims.

(** ** The scripts against the small provider *)

Lemma sim_tracks_groups : tracks_groups Sim.handle Sim.registered.
Proof.
  split.
  - intros a n gid. unfold Sim.registered, Sim.handle.
    destruct (Sim.refuse_groups a); [discriminate|]. intros Hreg.
    exists {| GroupId := gid |}, []. cbn. by rewrite Hreg.
  - intros a n g gs. unfold Sim.registered, Sim.handle.
    destruct (Sim.refuse_groups a); [discriminate|]. cbn.
    destruct (Sim.groups a !! n); cbn; [|discriminate]. by intros [= <- _].
  - intros a ns n. unfold Sim.handle.
    destruct (Sim.refuse_groups a); [done|]. by destruct (mapM _ ns).
  - intros a n d gid. unfold Sim.registered, Sim.handle.
    destruct (Sim.refuse_groups a) eqn:Hr; [discriminate|].
    destruct (Sim.groups a !! n); cbn; [discriminate|]. intros [= <-].
    rewrite Hr. apply lookup_insert_eq.
  - intros a g perms n. unfold Sim.handle.
    by destruct (Sim.refuse_groups a).
Qed.

Lemma sim_honours_MaxResults : honours_MaxResults Sim.handle Sim.eligible.
Proof.
  intros a n ts. unfold Sim.handle, free_tier_query.
  destruct (Sim.refuse_types a); [discriminate|]. by intros [= <-].
Qed.

(** An entry is in the log of a run that is computed. *)
Ltac in_log :=
  vm_compute; repeat first [apply list_elem_of_here | apply list_elem_of_further].

(** C1 at work: the first call on the fresh account creates the group, the
    second call finds it. *)
Lemma create_security_group_idempotent_witness :
  let first := create_security_group Sim.handle (start Sim.fresh ∅) in
  let second := create_security_group Sim.handle (start (cloud first.2) ∅) in
  first.1 = Returned (Some "sg-python-sg-for-ssh") /\
  second.1 = Returned (Some "sg-python-sg-for-ssh") /\
  requests second.2 = [group_lookup].
Proof.
  split; [reflexivity|].
  apply (proj2 (create_security_group_idempotent Sim.handle Sim.registered
                  sim_tracks_groups) Sim.fresh ∅ ∅ "sg-python-sg-for-ssh").
  reflexivity.
Defined.

(** C2 at work: one eligible type, none, and a refused query. *)
Lemma get_free_tier_instance_type_selects_witness :
  (get_free_tier_instance_type Sim.handle (start Sim.fresh ∅)).1
    = Returned "t2.micro" /\
  (get_free_tier_instance_type Sim.handle (start Sim.no_types ∅)).1
    = Returned "t3.micro" /\
  (get_free_tier_instance_type Sim.handle (start Sim.types_refused ∅)).1
    = Returned "t3.micro".
Proof.
  split; [|split].
  - apply (proj1 (proj2 (get_free_tier_instance_type_selects
                           Sim.handle Sim.fresh ∅))
                 {| InstanceType := "t2.micro" |} []).
    in_log.
  - apply (proj1 (proj2 (proj2 (get_free_tier_instance_type_selects
                                  Sim.handle Sim.no_types ∅)))).
    in_log.
  - apply (proj2 (proj2 (proj2 (get_free_tier_instance_type_selects
                                  Sim.handle Sim.types_refused ∅)))
                 Sim.not_authorized).
    in_log.
Defined.

(** C3 at work: the account has no key pair. *)
Lemma check_key_pair_not_found_witness :
  (check_key_pair Sim.handle "my-python-key" (start Sim.no_key ∅)).1
    = Returned false /\
  requests (main Sim.handle (start Sim.no_key ∅)).2
    = [DescribeKeyPairs ["my-python-key"]].
Proof.
  split.
  - apply (proj1 (check_key_pair_not_found Sim.handle Sim.no_key ∅)
                 "my-python-key" Sim.key_not_found); [in_log|reflexivity].
  - apply (proj2 (check_key_pair_not_found Sim.handle Sim.no_key ∅)
                 Sim.key_not_found); [in_log|reflexivity].
Defined.

(** C4 at work: the fresh account has no group. *)
Lemma create_security_group_creates_witness :
  let r := create_security_group Sim.handle (start Sim.fresh ∅) in
  (exists gid,
     Ev group_creation (Ok gid) ∈ calls r.2 /\
     requests r.2 =
       [ DescribeSecurityGroups ["python-sg-for-ssh"];
         CreateSecurityGroup "python-sg-for-ssh"
           "Security group for EC2 instance created via Python";
         AuthorizeSecurityGroupIngress gid
           [ {| IpProtocol := "tcp"; FromPort := 22; ToPort := 22;
                IpRanges := [ {| CidrIp := "0.0.0.0/0" |} ] |} ] ] /\
     r.1 = Returned (Some gid)) /\
  r.1 = Returned (Some "sg-python-sg-for-ssh") /\
  requests r.2 =
    [ DescribeSecurityGroups ["python-sg-for-ssh"];
      CreateSecurityGroup "python-sg-for-ssh"
        "Security group for EC2 instance created via Python";
      AuthorizeSecurityGroupIngress "sg-python-sg-for-ssh"
        [ {| IpProtocol := "tcp"; FromPort := 22; ToPort := 22;
             IpRanges := [ {| CidrIp := "0.0.0.0/0" |} ] |} ] ] /\
  stdout r.2 = [ "Creating new security group: 'python-sg-for-ssh'";
                 "Security Group Created: sg-python-sg-for-ssh";
                 "SSH rule added (Port 22 open to world)." ].
Proof.
  intros r. split.
  - apply (proj1 (create_security_group_creates Sim.handle Sim.fresh ∅)
             Sim.group_not_found); [in_log|reflexivity|].
    intros c e H. vm_compute in H. log_entry H. reflexivity.
  - destruct (proj2 (create_security_group_creates Sim.handle Sim.fresh ∅)
                Sim.group_not_found "sg-python-sg-for-ssh"
                eq_refl eq_refl eq_refl eq_refl) as (Hr & Hreq & Hout & _).
    split; [exact Hr|]. split; [exact Hreq|exact Hout].
Defined.

(** C5 at work: the launched instance gets no address, and the directory
    holds an earlier report. *)
Lemma main_without_public_address_witness :
  let fs : gmap string string := {[ "instance_connection.txt" := "earlier" ]} in
  let r := main Sim.handle (start Sim.no_address fs) in
  r.1 = Returned tt /\
  files r.2 = fs /\
  instructions_banner ∉ stdout r.2.
Proof.
  intros fs r.
  apply (proj1 (main_without_public_address Sim.handle Sim.no_address fs)
           "ami-0c02fb55956c7d316" 1 1 "t2.micro" "my-python-key"
           ["sg-python-sg-for-ssh"]
           [ {| ResourceType := "instance";
                Tags := [ {| Key := "Name"; Value := "MyPythonInstance" |} ] |} ]
           {| instance_id := "i-0123456789abcdef0" |} []
           {| state := {| Name := "running" |}; public_ip_address := None |});
    [in_log|in_log|in_log|reflexivity].
Defined.

(** C6 at work: the scenario of the specification, over an earlier report. *)
Lemma main_writes_report_witness :
  let fs : gmap string string := {[ "instance_connection.txt" := "earlier" ]} in
  let r := main Sim.handle (start Sim.fresh fs) in
  files r.2 !! "instance_connection.txt" =
    Some (unlines [ "Instance ID: i-0123456789abcdef0";
                    "Public IP: 203.0.113.5";
                    "Key Pair: my-python-key.pem";
                    "Connect: ec2-user@203.0.113.5" ]).
Proof.
  intros fs r.
  apply (main_writes_report Sim.handle Sim.fresh fs
           {| instance_id := "i-0123456789abcdef0" |}
           {| state := {| Name := "running" |};
              public_ip_address := Some "203.0.113.5" |}
           "203.0.113.5");
    [in_log|in_log|reflexivity|discriminate].
Defined.

(** C7 at work: the account refuses group operations. *)
Lemma create_security_group_refused_witness :
  let r := create_security_group Sim.handle (start Sim.groups_refused ∅) in
  let m := main Sim.handle (start Sim.groups_refused ∅) in
  r.1 = Returned None /\
  requests r.2 = [group_lookup] /\
  stdout r.2 = ["Error checking for security group: " +:+ Sim.not_authorized] /\
  m.1 = Returned tt /\
  last (stdout m.2) = Some "Failed to get a security group. Exiting." /\
  requests m.2 =
    [DescribeKeyPairs ["my-python-key"]; free_tier_query 5; group_lookup].
Proof.
  intros r m.
  destruct (proj1 (proj2 (proj2 (create_security_group_refused Sim.handle
                                   Sim.groups_refused ∅)))
              Sim.not_authorized eq_refl eq_refl) as (Hr & Hreq & Hout & _).
  assert (group_step_refused (calls m.2)) as H.
  { left. exists Sim.not_authorized. split; [in_log|reflexivity]. }
  destruct (proj1 (proj2 (create_security_group_refused Sim.handle
                            Sim.groups_refused ∅)) H) as (Hm & Hl & _).
  split; [exact Hr|]. split; [exact Hreq|]. split; [exact Hout|].
  split; [exact Hm|]. split; [exact Hl|]. reflexivity.
Defined.

(** C7 as stated fails for an error that is not a client error: when the
    lookup of the group cannot reach the service, [create_security_group]
    raises and so does [main], with no failure message. *)
Lemma connection_error_is_not_turned_into_None :
  let w := (Sim.fresh, Faulty.raising is_group_call Faulty.connection_error) in
  (create_security_group Faulty.handle (start w ∅)).1
    = Raised Faulty.connection_error /\
  (main Faulty.handle (start w ∅)).1 = Raised Faulty.connection_error /\
  ~ every_group_error_gives_None Faulty.handle w ∅.
Proof.
  intros w. split; [reflexivity|]. split; [reflexivity|].
  intros H.
  destruct (H group_lookup Faulty.connection_error eq_refl) as [Hnone _].
  - intros (_ & msg & Hmsg & _). discriminate Hmsg.
  - assert ((create_security_group Faulty.handle (start w ∅)).1
            = Returned None) as Hr; [|discriminate Hr].
    apply Hnone. in_log.
Qed.

(** C4 as stated fails when the rule is refused: the lookup is answered
    "not found" and the creation succeeds, but the call returns [None],
    not the new identifier. *)
Lemma refused_rule_loses_the_new_group :
  let r := create_security_group Faulty.rule_refused (start Sim.fresh ∅) in
  Ev group_lookup (Err (ClientError Sim.group_not_found)) ∈ calls r.2 /\
  Ev group_creation (Ok "sg-python-sg-for-ssh") ∈ calls r.2 /\
  r.1 = Returned None /\
  ~ created_group_is_returned Faulty.rule_refused Sim.fresh ∅.
Proof.
  intros r. split; [in_log|]. split; [in_log|]. split; [reflexivity|].
  intros H.
  assert (r.1 = Returned (Some "sg-python-sg-for-ssh")) as Hr;
    [|discriminate Hr].
  apply (H Sim.group_not_found "sg-python-sg-for-ssh");
    [in_log|reflexivity|in_log].
Qed.


(** C9 at work: three instances in three reservations, one of them empty. *)
Lemma list_ec2_prints_every_instance_witness :
  stdout (list_ec2 Sim.handle (start Sim.with_instances ∅)).2 =
    [ "Instance ID" +:+ tab +:+ tab +:+ "State" +:+ tab +:+ tab +:+ "Type";
      "----------------------------------------------";
      "i-0aaa" +:+ tab +:+ "running" +:+ tab +:+ tab +:+ "t2.micro";
      "i-0bbb" +:+ tab +:+ "stopped" +:+ tab +:+ tab +:+ "t3.micro";
      "i-0ccc" +:+ tab +:+ "pending" +:+ tab +:+ tab +:+ "t3.small" ].
Proof.
  apply (list_ec2_prints_every_instance Sim.handle Sim.with_instances ∅
           (Sim.reservations Sim.with_instances)).
  in_log.
Defined.

(** C10 as stated fails on the small provider.  The account has one
    eligible type, ['t2.micro'], and refuses the capability query; the type
    lookup selects ['t3.micro'], which is none of the eligible types. *)
Lemma fallback_is_not_among_first_five :
  honours_MaxResults Sim.handle Sim.eligible /\
  take 5 (Sim.eligible Sim.types_refused) = [ {| InstanceType := "t2.micro" |} ] /\
  (get_free_tier_instance_type Sim.handle (start Sim.types_refused ∅)).1
    = Returned "t3.micro" /\
  ~ among_first_five Sim.handle Sim.eligible Sim.types_refused ∅ /\
  ~ always_among_first_five Sim.handle Sim.eligible.
Proof.
  assert (~ among_first_five Sim.handle Sim.eligible Sim.types_refused ∅) as H.
  { intros (t & Hin & Hselected).
    apply list_elem_of_singleton in Hin as ->.
    discriminate Hselected. }
  split; [exact sim_honours_MaxResults|]. split; [reflexivity|].
  split; [reflexivity|]. split; [exact H|].
  intros Hall. exact (H (Hall Sim.types_refused ∅)).
Qed.

(** C10 as amended, at work: seven eligible types, the first is selected;
    no eligible type, the fallback is selected. *)
Lemma free_tier_query_limit_witness :
  let r := get_free_tier_instance_type Sim.handle (start Sim.many_types ∅) in
  requests r.2 = [free_tier_query 5] /\
  r.1 = Returned "t2.micro" /\
  length (Sim.eligible Sim.many_types) = 7%nat /\
  (get_free_tier_instance_type Sim.handle (start Sim.no_types ∅)).1
    = Returned "t3.micro".
Proof.
  intros r.
  destruct (free_tier_query_limit Sim.handle Sim.eligible
              sim_honours_MaxResults Sim.many_types ∅) as (Hq & Hfirst & _).
  destruct (Hfirst {| InstanceType := "t2.micro" |}
              (map Build_InstanceTypeInfo
                   ["t3.micro"; "t3.small"; "t4g.micro"; "t4g.small"])
              eq_refl) as (Hr & _).
  destruct (free_tier_query_limit Sim.handle Sim.eligible
              sim_honours_MaxResults Sim.no_types ∅) as (_ & _ & Hnone & _).
  destruct (Hnone eq_refl) as (Hfallback & _).
  split; [exact Hq|]. split; [exact Hr|]. split; [reflexivity|exact Hfallback].
Defined.

(** ** Further properties of the scripts *)

Section Launch.

Context {W : Type} (aws : Provider W).

(** Every run of the launch is one of its paths. *)
Lemma launch_follows key_name instance_type sg_id w fs out log :
  exists evs out' o w' fs',
    launch aws key_name instance_type sg_id (mkEnv w fs out log)
    = (o, mkEnv w' fs' (out ++ out') (log ++ evs)) /\
    launch_path key_name instance_type sg_id fs evs o fs' out'.
Proof.
  remember (launch aws key_name instance_type sg_id (mkEnv w fs out log))
    as r eqn:E.
  unfold launch, print_windows_connection_instructions, request in E.
  py_eval_in E.
  assert (forall (o : outcome unit) w' fs' (out1 out' : list string)
                 (log1 evs : list Event),
            r = (o, mkEnv w' fs' out1 log1) ->
            out1 = out ++ out' -> log1 = log ++ evs ->
            launch_path key_name instance_type sg_id fs evs o fs' out' ->
            exists evs out' o w' fs',
              r = (o, mkEnv w' fs' (out ++ out') (log ++ evs)) /\
              launch_path key_name instance_type sg_id fs evs o fs' out')
    as Hend.
  { intros o w' fs' out1 out' log1 evs -> -> -> Hp.
    by exists evs, out', o, w', fs'. }
  answer_in aws E.
  - destruct v as [|instance rest]; py_eval_in E.
    { eapply Hend; [exact E|symmetry; apply app_nil_r|reflexivity|].
      apply launch_answer_empty. }
    answer_in aws E.
    + answer_in aws E.
      * match type of E with
        | context [truthy ?x] => destruct (truthy x) eqn:Hip; py_eval_in E
        end.
        -- rewrite !alter_insert_eq in E.
           eapply Hend; [exact E|by rewrite <- !app_assoc
                        |by rewrite <- !app_assoc|].
           match goal with
           | |- context [<[_ := ?text]> fs] =>
               replace text
                 with (report (instance_id instance)
                         (fmt (public_ip_address v0)) key_name)
           end.
           ++ by apply (loaded_with_address _ _ _ _ instance rest).
           ++ unfold report, report_lines, unlines. cbn [foldr].
              by rewrite !str_app_assoc.
        -- eapply Hend; [exact E|by rewrite <- !app_assoc
                        |by rewrite <- !app_assoc|].
           by apply (loaded_without_address _ _ _ _ instance rest).
      * eapply Hend; [exact E|by rewrite <- !app_assoc
                     |by rewrite <- !app_assoc|].
        by apply (load_refused _ _ _ _ instance rest).
      * eapply Hend; [exact E|by rewrite <- !app_assoc
                     |by rewrite <- !app_assoc|].
        by apply (load_raised _ _ _ _ instance rest).
      * eapply Hend; [exact E|by rewrite <- !app_assoc
                     |by rewrite <- !app_assoc|].
        by apply (load_raised _ _ _ _ instance rest).
    + eapply Hend; [exact E|by rewrite <- !app_assoc
                   |by rewrite <- !app_assoc|].
      by apply (wait_refused _ _ _ _ instance rest).
    + eapply Hend; [exact E|by rewrite <- !app_assoc
                   |by rewrite <- !app_assoc|].
      by apply (wait_raised _ _ _ _ instance rest).
    + eapply Hend; [exact E|by rewrite <- !app_assoc
                   |by rewrite <- !app_assoc|].
      by apply (wait_raised _ _ _ _ instance rest).
  - eapply Hend; [exact E|reflexivity|reflexivity|]. apply launch_refused.
  - eapply Hend; [exact E|symmetry; apply app_nil_r|reflexivity|].
    by apply launch_raised.
  - eapply Hend; [exact E|symmetry; apply app_nil_r|reflexivity|].
    by apply launch_raised.
Qed.

Lemma main_run_eq fs evs o fs' out evs' out' :
  main_run fs evs o fs' out -> evs = evs' -> out = out' ->
  main_run fs evs' o fs' out'.
Proof. by intros ? <- <-. Qed.

(** Every run of [main] is one of these paths too. *)
Lemma main_runs w fs :
  let r := main aws (start w fs) in
  main_run fs (calls r.2) r.1 (files r.2) (stdout r.2).
Proof.
  intros r. remember r as r' eqn:E. subst r.
  unfold main, start in E. py_eval_in E. cbn [app] in E.
  match type of E with
  | context [check_key_pair aws ?k (mkEnv ?w0 ?fs0 ?out0 ?log0)] =>
      destruct (step_run _ _ _ (check_key_pair_follows aws k)
                  (check_key_pair_confined aws k) w0 fs0 out0 log0)
        as (evs1 & out1 & o1 & w1 & Heq & Hp1 & _ & Hb1);
      rewrite Heq in E; clear Heq; py_eval_in E; cbn [app] in E
  end.
  destruct o1 as [[|]|e]; py_eval_in E;
    [ | subst r'; by constructor | subst r'; by constructor ].
  match type of E with
  | context [get_free_tier_instance_type aws (mkEnv ?w0 ?fs0 ?out0 ?log0)] =>
      destruct (step_run _ _ _ (get_free_tier_instance_type_follows aws)
                  (get_free_tier_instance_type_confined aws) w0 fs0 out0 log0)
        as (evs2 & out2 & o2 & w2 & Heq & Hp2 & _ & Hb2);
      rewrite Heq in E; clear Heq; py_eval_in E
  end.
  destruct o2 as [ty|e]; py_eval_in E; [ | subst r'; by constructor ].
  match type of E with
  | context [create_security_group aws (mkEnv ?w0 ?fs0 ?out0 ?log0)] =>
      destruct (step_run _ _ _ (create_security_group_follows aws)
                  (create_security_group_confined aws) w0 fs0 out0 log0)
        as (evs3 & out3 & o3 & w3 & Heq & Hp3 & _ & Hb3);
      rewrite Heq in E; clear Heq; py_eval_in E
  end.
  assert (instructions_banner ∉
            (([str_mul "=" 60; "EC2 Instance Creator with Free-Tier Detection";
               str_mul "=" 60] ++ out1) ++ out2) ++ out3) as Hb3'.
  { repeat (apply not_elem_of_app; split; [|done]). not_banner. }
  destruct o3 as [[sg|]|e]; py_eval_in E.
  - destruct (truthy (Some sg)) eqn:Hsg; py_eval_in E.
    + match type of E with
      | context [launch aws ?k ?t ?g (mkEnv ?w0 ?fs0 ?out0 ?log0)] =>
          destruct (launch_follows k t g w0 fs0 out0 log0)
            as (evs4 & out4 & o4 & w4 & fs4 & Heq & H4);
          rewrite Heq in E; clear Heq
      end.
      subst r'. py_eval.
      eapply main_run_eq;
        [ by eapply (run_launch _ evs1 evs2 ty evs3 sg evs4)
        | by rewrite <- !app_assoc | reflexivity ].
    + subst r'. py_eval.
      eapply main_run_eq;
        [ by eapply (run_without_group _ evs1 evs2 ty evs3 (Some sg))
        | by rewrite <- !app_assoc | reflexivity ].
  - subst r'. py_eval.
    eapply main_run_eq;
      [ by eapply (run_without_group _ evs1 evs2 ty evs3 None)
      | by rewrite <- !app_assoc | reflexivity ].
  - subst r'. py_eval.
    eapply main_run_eq;
      [ by eapply (run_raised_in_group_step _ evs1 evs2 ty evs3)
      | by rewrite <- !app_assoc | reflexivity ].
Qed.

End Launch.

(** *** Exceptions along a path *)

Ltac not_caught :=
  match goal with
  | Hu : uncaught (ClientError _) |- _ => destruct Hu
  end.

Lemma key_path_uncaught key_name evs o c e :
  key_path key_name evs o -> Ev c (Err e) ∈ evs -> uncaught e ->
  o = Raised e /\ last evs = Some (Ev c (Err e)).
Proof.
  intros Hp Hin Hu. destruct Hp; log_entry Hin; try not_caught; done.
Qed.

Lemma type_path_uncaught evs o c e :
  type_path evs o -> Ev c (Err e) ∈ evs -> uncaught e ->
  o = Raised e /\ last evs = Some (Ev c (Err e)).
Proof.
  intros Hp Hin Hu. destruct Hp; log_entry Hin; try not_caught; done.
Qed.

Lemma group_path_uncaught evs o c e :
  group_path evs o -> Ev c (Err e) ∈ evs -> uncaught e ->
  o = Raised e /\ last evs = Some (Ev c (Err e)).
Proof.
  intros Hp Hin Hu. destruct Hp; log_entry Hin; try not_caught; done.
Qed.

Lemma launch_path_uncaught key_name ty sg fs evs o fs' out c e :
  launch_path key_name ty sg fs evs o fs' out ->
  Ev c (Err e) ∈ evs -> uncaught e ->
  o = Raised e /\ last evs = Some (Ev c (Err e)) /\ fs' = fs.
Proof.
  intros Hp Hin Hu. destruct Hp; log_entry Hin; try not_caught; done.
Qed.

Lemma launch_path_calls key_name ty sg fs evs o fs' out :
  launch_path key_name ty sg fs evs o fs' out ->
  Forall (fun ev => is_instance_call (ev_call ev) = true) evs.
Proof. destruct 1; repeat constructor. Qed.

Lemma last_app_last {A} (l1 l2 : list A) (x : A) :
  last l2 = Some x -> last (l1 ++ l2) = Some x.
Proof.
  intros H. destruct l2 as [|y l2] using rev_ind; [discriminate|].
  rewrite last_snoc in H. rewrite app_assoc. rewrite last_snoc. done.
Qed.

Lemma key_path_length key_name evs o :
  key_path key_name evs o -> length evs = 1%nat.
Proof. by destruct 1. Qed.

Lemma type_path_length evs o : type_path evs o -> length evs = 1%nat.
Proof. by destruct 1. Qed.

Lemma group_path_length evs o : group_path evs o -> (length evs <= 3)%nat.
Proof. destruct 1; simpl; lia. Qed.

Lemma launch_path_length key_name ty sg fs evs o fs' out :
  launch_path key_name ty sg fs evs o fs' out -> (length evs <= 3)%nat.
Proof. destruct 1; simpl; lia. Qed.

Lemma Forall_calls (P : api -> bool) (evs : list Event) :
  Forall (fun ev => P (ev_call ev) = true) evs ->
  Forall (fun c => P c = true) (ev_call <$> evs).
Proof. intros H. by apply Forall_fmap. Qed.

Section MainProperties.

Context {W : Type} (aws : Provider W).

(** A step that returned did not meet an exception that is not a client
    error. *)
Ltac returned_step H Hu :=
  match goal with
  | Hp : key_path _ ?evs (Returned _) |- _ =>
      match type of H with _ ∈ evs =>
        destruct (key_path_uncaught _ _ _ _ _ Hp H Hu) as [? _]; discriminate
      end
  | Hp : type_path ?evs (Returned _) |- _ =>
      match type of H with _ ∈ evs =>
        destruct (type_path_uncaught _ _ _ _ Hp H Hu) as [? _]; discriminate
      end
  | Hp : group_path ?evs (Returned _) |- _ =>
      match type of H with _ ∈ evs =>
        destruct (group_path_uncaught _ _ _ _ Hp H Hu) as [? _]; discriminate
      end
  end.

(** X2.  [main] catches client errors only.  When a request of a run is
    answered with another exception, the run ends with that exception, the
    request is the last one issued, and the working directory is as it
    was. *)
Theorem main_raises_other_exceptions (w : W) (fs : gmap string string) :
  forall c e,
    let m := main aws (start w fs) in
    Ev c (Err e) ∈ calls m.2 ->
    uncaught e ->
    m.1 = Raised e /\
    last (calls m.2) = Some (Ev c (Err e)) /\
    files m.2 = fs.
Proof.
  intros c e m H Hu. subst m.
  pose proof (main_runs aws w fs) as Hm. cbv zeta in Hm.
  destruct (main aws (start w fs)) as [o [w' fs' out log]].
  cbn [fst snd calls files stdout] in *.
  destruct Hm as [evs out Hk|evs e' out Hk|evs1 evs2 e' out Hk Ht|
                  evs1 evs2 ty evs3 e' out Hk Ht Hg|
                  evs1 evs2 ty evs3 sg out Hk Ht Hg|
                  evs1 evs2 ty evs3 sg evs4 o fs' out out' Hk Ht Hg Hsg Hb Hl].
  - returned_step H Hu.
  - destruct (key_path_uncaught _ _ _ _ _ Hk H Hu) as [[= ->] ?]. done.
  - apply elem_of_app in H as [H|H]; [returned_step H Hu|].
    destruct (type_path_uncaught _ _ _ _ Ht H Hu) as [[= ->] ?].
    split; [done|]. split; [|done]. by apply last_app_last.
  - apply elem_of_app in H as [H|H]; [returned_step H Hu|].
    apply elem_of_app in H as [H|H]; [returned_step H Hu|].
    destruct (group_path_uncaught _ _ _ _ Hg H Hu) as [[= ->] ?].
    split; [done|]. split; [|done]. by do 2 apply last_app_last.
  - apply elem_of_app in H as [H|H]; [returned_step H Hu|].
    apply elem_of_app in H as [H|H]; [returned_step H Hu|].
    returned_step H Hu.
  - apply elem_of_app in H as [H|H]; [returned_step H Hu|].
    apply elem_of_app in H as [H|H]; [returned_step H Hu|].
    apply elem_of_app in H as [H|H]; [returned_step H Hu|].
    destruct (launch_path_uncaught _ _ _ _ _ _ _ _ _ _ Hl H Hu) as (-> & ? & ->).
    split; [done|]. split; [|done]. by do 3 apply last_app_last.
Qed.

(** X3.  No client error escapes [main]: a run never ends with a
    [ClientError]. *)
Theorem main_never_raises_ClientError (w : W) (fs : gmap string string) :
  forall msg, (main aws (start w fs)).1 <> Raised (ClientError msg).
Proof.
  intros msg.
  pose proof (main_runs aws w fs) as Hm. cbv zeta in Hm.
  destruct (main aws (start w fs)) as [o [w' fs' out log]].
  cbn [fst snd calls files stdout] in *.
  destruct Hm as [evs out Hk|evs e' out Hk|evs1 evs2 e' out Hk Ht|
                  evs1 evs2 ty evs3 e' out Hk Ht Hg|
                  evs1 evs2 ty evs3 sg out Hk Ht Hg|
                  evs1 evs2 ty evs3 sg evs4 o fs' out out' Hk Ht Hg Hsg Hb Hl];
    try discriminate; intros [= ->].
  - inversion Hk; subst; not_caught.
  - inversion Ht; subst; not_caught.
  - inversion Hg; subst; not_caught.
  - inversion Hl; subst; not_caught.
Qed.

(** X5.  The requests of a run of [main] come in the order of its steps:
    the lookup of the key pair, then at most one capability query, then at
    most three requests on the group, then at most three on the instance;
    eight requests at most. *)
Theorem main_steps_in_order (w : W) (fs : gmap string string) :
  let m := main aws (start w fs) in
  exists k t g l,
    requests m.2 = k ++ t ++ g ++ l /\
    k = [DescribeKeyPairs ["my-python-key"]] /\
    Forall (fun c => is_type_call c = true) t /\ (length t <= 1)%nat /\
    Forall (fun c => is_group_call c = true) g /\ (length g <= 3)%nat /\
    Forall (fun c => is_instance_call c = true) l /\ (length l <= 3)%nat.
Proof.
  intros m. subst m. unfold requests.
  pose proof (main_runs aws w fs) as Hm. cbv zeta in Hm.
  destruct (main aws (start w fs)) as [o [w' fs' out log]].
  cbn [fst snd calls files stdout] in *.
  assert (forall evs o, key_path key_name_of_main evs o ->
            ev_call <$> evs = [DescribeKeyPairs ["my-python-key"]]) as Hkey.
  { by destruct 1. }
  destruct Hm as [evs out Hk|evs e' out Hk|evs1 evs2 e' out Hk Ht|
                  evs1 evs2 ty evs3 e' out Hk Ht Hg|
                  evs1 evs2 ty evs3 sg out Hk Ht Hg|
                  evs1 evs2 ty evs3 sg evs4 o fs' out out' Hk Ht Hg Hsg Hb Hl].
  - exists (ev_call <$> evs), [], [], []. rewrite !app_nil_r.
    split; [done|]. split; [by eapply Hkey|]. simpl. repeat split; (done || lia).
  - exists (ev_call <$> evs), [], [], []. rewrite !app_nil_r.
    split; [done|]. split; [by eapply Hkey|]. simpl. repeat split; (done || lia).
  - exists (ev_call <$> evs1), (ev_call <$> evs2), [], [].
    rewrite !app_nil_r, fmap_app.
    split; [done|]. split; [by eapply Hkey|].
    split; [by eapply Forall_calls, type_path_calls|].
    rewrite length_fmap, (type_path_length _ _ Ht). simpl.
    repeat split; (done || lia).
  - exists (ev_call <$> evs1), (ev_call <$> evs2), (ev_call <$> evs3), [].
    rewrite !app_nil_r, !fmap_app.
    split; [done|]. split; [by eapply Hkey|].
    split; [by eapply Forall_calls, type_path_calls|].
    rewrite !length_fmap, (type_path_length _ _ Ht).
    split; [lia|]. split; [by eapply Forall_calls, group_path_calls|].
    split; [by eapply group_path_length|]. simpl. split; [done|lia].
  - exists (ev_call <$> evs1), (ev_call <$> evs2), (ev_call <$> evs3), [].
    rewrite !app_nil_r, !fmap_app.
    split; [done|]. split; [by eapply Hkey|].
    split; [by eapply Forall_calls, type_path_calls|].
    rewrite !length_fmap, (type_path_length _ _ Ht).
    split; [lia|]. split; [by eapply Forall_calls, group_path_calls|].
    split; [by eapply group_path_length|]. simpl. split; [done|lia].
  - exists (ev_call <$> evs1), (ev_call <$> evs2), (ev_call <$> evs3),
      (ev_call <$> evs4).
    rewrite !fmap_app.
    split; [done|]. split; [by eapply Hkey|].
    split; [by eapply Forall_calls, type_path_calls|].
    rewrite !length_fmap, (type_path_length _ _ Ht).
    split; [lia|]. split; [by eapply Forall_calls, group_path_calls|].
    split; [by eapply group_path_length|].
    split; [by eapply Forall_calls, launch_path_calls|].
    by eapply launch_path_length.
Qed.


(** X6.  A client error from the launch request or from the load of the
    attributes is reported with the same line, "Failed to launch instance",
    and ends the run normally: that request is the last one (nothing
    created before is removed) and no file is written. *)
Theorem main_reports_launch_failure (w : W) (fs : gmap string string) :
  forall c msg,
    let m := main aws (start w fs) in
    is_create_or_load c = true ->
    Ev c (Err (ClientError msg)) ∈ calls m.2 ->
    m.1 = Returned tt /\
    last (stdout m.2) = Some ("Failed to launch instance: " +:+ msg) /\
    last (calls m.2) = Some (Ev c (Err (ClientError msg))) /\
    files m.2 = fs.
Proof.
  intros c msg m Hcl H. subst m.
  assert (is_instance_call c = true) as Hc by (by destruct c).
  pose proof (main_runs aws w fs) as Hm. cbv zeta in Hm.
  destruct (main aws (start w fs)) as [o [w' fs' out log]].
  cbn [fst snd calls files stdout] in *.
  assert (forall (P : api -> bool) evs,
            Forall (fun ev => P (ev_call ev) = true) evs ->
            (forall c', P c' = true -> is_instance_call c' = false) ->
            Ev c (Err (ClientError msg)) ∈ evs -> False) as Hno.
  { intros P evs HP Hdisj Hin.
    pose proof (kind_of_entry _ _ _ HP Hin) as Hkind.
    apply Hdisj in Hkind. cbn [ev_call] in Hkind. congruence. }
  assert (forall evs o, key_path key_name_of_main evs o ->
            Ev c (Err (ClientError msg)) ∈ evs -> False) as Hnk.
  { intros evs o' Hk. apply (Hno _ _ (key_path_calls _ _ _ Hk)).
    by intros []. }
  assert (forall evs o, type_path evs o ->
            Ev c (Err (ClientError msg)) ∈ evs -> False) as Hnt.
  { intros evs o' Ht. apply (Hno _ _ (type_path_calls _ _ Ht)).
    by intros []. }
  assert (forall evs o, group_path evs o ->
            Ev c (Err (ClientError msg)) ∈ evs -> False) as Hng.
  { intros evs o' Hg. apply (Hno _ _ (group_path_calls _ _ Hg)).
    by intros []. }
  destruct Hm as [evs out Hk|evs e' out Hk|evs1 evs2 e' out Hk Ht|
                  evs1 evs2 ty evs3 e' out Hk Ht Hg|
                  evs1 evs2 ty evs3 sg out Hk Ht Hg|
                  evs1 evs2 ty evs3 sg evs4 o fs' out out' Hk Ht Hg Hsg Hb Hl];
    repeat (apply elem_of_app in H as [H|H]);
    try (exfalso; by eauto).
  destruct Hl; log_entry H; try not_caught;
    (split; [done|]);
    (split; [by rewrite ?app_assoc, last_snoc|]);
    (split; [by do 3 apply last_app_last|done]).
Qed.

(** X9.  The only file [main] ever writes is [instance_connection.txt], and
    only in a run in which the attributes were loaded with an address:
    after any run the working directory is as it was, or it differs by
    that file, which then holds the report. *)
Theorem main_writes_only_the_report (w : W) (fs : gmap string string) :
  let m := main aws (start w fs) in
  files m.2 = fs \/
  exists i d,
    Ev (Load i) (Ok d) ∈ calls m.2 /\
    truthy (public_ip_address d) = true /\
    files m.2 =
      <["instance_connection.txt" :=
          unlines [ "Instance ID: " +:+ instance_id i;
                    "Public IP: " +:+ fmt (public_ip_address d);
                    "Key Pair: my-python-key.pem";
                    "Connect: ec2-user@" +:+ fmt (public_ip_address d) ]]> fs.
Proof.
  intros m. subst m.
  pose proof (main_runs aws w fs) as Hm. cbv zeta in Hm.
  destruct (main aws (start w fs)) as [o [w' fs' out log]].
  cbn [fst snd calls files stdout] in *.
  destruct Hm as [evs out Hk|evs e' out Hk|evs1 evs2 e' out Hk Ht|
                  evs1 evs2 ty evs3 e' out Hk Ht Hg|
                  evs1 evs2 ty evs3 sg out Hk Ht Hg|
                  evs1 evs2 ty evs3 sg evs4 o fs' out out' Hk Ht Hg Hsg Hb Hl];
    try (by left).
  destruct Hl; try (by left).
  right. exists i, d. split; [|done].
  do 3 (apply elem_of_app; right).
  apply list_elem_of_further, list_elem_of_further, list_elem_of_here.
Qed.

(** X8.  An address that is the empty string counts as no address:
    [print_windows_connection_instructions] returns at once for it, and a
    run of [main] whose loaded attributes hold it writes no file, prints no
    instructions, and ends with the state line and the two status lines. *)
Theorem empty_address_is_no_address (w : W) (fs : gmap string string) :
  (forall key_name (s : Env W),
     print_windows_connection_instructions key_name (Some "") s
     = (Returned tt, s)) /\
  (forall i d,
     let m := main aws (start w fs) in
     Ev (Load i) (Ok d) ∈ calls m.2 ->
     public_ip_address d = Some "" ->
     m.1 = Returned tt /\
     files m.2 = fs /\
     (instructions_banner ∉ stdout m.2) /\
     exists before,
       stdout m.2 =
         before ++
         [ "Instance State: " +:+ Name (state d);
           nl +:+ "Use this command to check status:";
           "aws ec2 describe-instances --instance-ids " +:+ instance_id i ]).
Proof.
  split; [reflexivity|].
  intros i d m H Hip. subst m.
  pose proof (main_runs aws w fs) as Hm. cbv zeta in Hm.
  destruct (main aws (start w fs)) as [o [w' fs' out log]].
  cbn [fst snd calls files stdout] in *.
  destruct Hm as [evs out Hk|evs e' out Hk|evs1 evs2 e' out Hk Ht|
                  evs1 evs2 ty evs3 e' out Hk Ht Hg|
                  evs1 evs2 ty evs3 sg out Hk Ht Hg|
                  evs1 evs2 ty evs3 sg evs4 o fs' out out' Hk Ht Hg Hsg Hb Hl];
    find_step H.
  destruct Hl; log_entry H;
    try (match goal with
         | Htr : truthy _ = true |- _ => rewrite Hip in Htr; discriminate Htr
         end).
  split; [done|]. split; [done|]. split.
  - apply not_elem_of_app. split; [done|]. unfold launched_lines, status_lines.
    cbn [app]. not_banner.
  - eexists (out ++ launched_lines _ _ _ _).
    by rewrite <- !app_assoc.
Qed.

(** X7.  With an address, the connection instructions are printed: the
    console of the run ends with the state and address lines, the seventeen
    lines of the instructions for that address and the key file of the
    script, the line about the saved file and the two status lines. *)
Theorem main_prints_instructions (w : W) (fs : gmap string string) :
  forall i d ip,
    let m := main aws (start w fs) in
    Ev (Load i) (Ok d) ∈ calls m.2 ->
    public_ip_address d = Some ip ->
    ip <> "" ->
    instructions_banner ∈ stdout m.2 /\
    exists before,
      stdout m.2 =
        before ++
        [ "Instance State: " +:+ Name (state d); "Public IP: " +:+ ip ] ++
        instruction_lines "my-python-key" (Some ip) ++
        [ nl +:+ "Connection info saved to 'instance_connection.txt'";
          nl +:+ "Use this command to check status:";
          "aws ec2 describe-instances --instance-ids " +:+ instance_id i ].
Proof.
  intros i d ip m H Hip Hne. subst m.
  assert (truthy (public_ip_address d) = true) as Htruthy.
  { rewrite Hip. cbn [truthy]. by apply negb_true_iff, String.eqb_neq. }
  pose proof (main_runs aws w fs) as Hm. cbv zeta in Hm.
  destruct (main aws (start w fs)) as [o [w' fs' out log]].
  cbn [fst snd calls files stdout] in *.
  destruct Hm as [evs out Hk|evs e' out Hk|evs1 evs2 e' out Hk Ht|
                  evs1 evs2 ty evs3 e' out Hk Ht Hg|
                  evs1 evs2 ty evs3 sg out Hk Ht Hg|
                  evs1 evs2 ty evs3 sg evs4 o fs' out out' Hk Ht Hg Hsg Hb Hl];
    find_step H.
  destruct Hl; log_entry H; try congruence.
  rewrite Hip. split.
  - apply elem_of_app. right. apply elem_of_app. right.
    apply elem_of_app. right. apply elem_of_app. left.
    apply list_elem_of_further, list_elem_of_here.
  - eexists (out ++ launched_lines _ _ _ _).
    by rewrite <- !app_assoc.
Qed.

End MainProperties.

Lemma group_path_empty_answer evs o :
  group_path evs o -> Ev group_lookup (Ok []) ∈ evs ->
  o = Raised IndexError /\ evs = [Ev group_lookup (Ok [])].
Proof. intros Hp Hin. destruct Hp; log_entry Hin; done. Qed.

Lemma length_concat_instances (reservations : list Reservation) :
  length (concat (Instances <$> reservations))
  = sum_list (length ∘ Instances <$> reservations).
Proof.
  induction reservations as [|x xs IH]; [done|].
  cbn [fmap list_fmap concat]. rewrite length_app, IH. done.
Qed.

Section StepProperties.

Context {W : Type} (aws : Provider W).

(** X1.  Any client error from the lookup of the key pair, not only "not
    found", makes [check_key_pair] return [False]; for another error it
    prints one line with the text of the error.  [main] then stops after
    this one request with the message about a missing key pair. *)
Theorem check_key_pair_any_client_error (w : W) (fs : gmap string string) :
  (forall key_name msg,
     let r := check_key_pair aws key_name (start w fs) in
     Ev (DescribeKeyPairs [key_name]) (Err (ClientError msg)) ∈ calls r.2 ->
     r.1 = Returned false /\
     files r.2 = fs /\
     (str_in "InvalidKeyPair.NotFound" msg = false ->
      stdout r.2 = ["Error checking key pair: " +:+ msg])) /\
  (forall msg,
     let m := main aws (start w fs) in
     Ev (DescribeKeyPairs ["my-python-key"]) (Err (ClientError msg)) ∈ calls m.2 ->
     m.1 = Returned tt /\
     requests m.2 = [DescribeKeyPairs ["my-python-key"]] /\
     last (stdout m.2) = Some "Failed due to missing key pair. Exiting.").
Proof.
  split.
  - intros key_name msg r H. subst r. revert H.
    unfold check_key_pair, request, start. py_eval.
    destruct (aws (DescribeKeyPairs [key_name]) w) as [[u|[msg'| |msg']] w'];
      py_eval; cbn [app].
    + case_bool_decide as Hpem; py_eval; intros H; log_entry H.
    + destruct (str_in _ msg') eqn:Hnf; py_eval; cbn [app];
        intros H; log_entry H; repeat split; congruence.
    + intros H; log_entry H.
    + intros H; log_entry H.
  - intros msg m H. subst m. unfold requests.
    pose proof (main_runs aws w fs) as Hm. cbv zeta in Hm.
    destruct (main aws (start w fs)) as [o [w' fs' out log]].
    cbn [fst snd calls files stdout] in *.
    destruct Hm as [evs out Hk|evs e' out Hk|evs1 evs2 e' out Hk Ht|
                    evs1 evs2 ty evs3 e' out Hk Ht Hg|
                    evs1 evs2 ty evs3 sg out Hk Ht Hg|
                    evs1 evs2 ty evs3 sg evs4 o fs' out out' Hk Ht Hg Hsg Hb Hl];
      try pose proof (launch_path_calls _ _ _ _ _ _ _ _ Hl) as HP4;
      find_step H.
    + inversion Hk; subst. by rewrite last_snoc.
    + inversion Hk; subst. log_entry H. not_caught.
    + inversion Hk; subst. log_entry H.
    + inversion Hk; subst. log_entry H.
    + inversion Hk; subst. log_entry H.
    + inversion Hk; subst. log_entry H.
Qed.

(** X12.  On both fallback paths of the type lookup the value returned is
    ['t3.micro'] while the one line printed names ['t2.micro']. *)
Theorem fallback_message_names_t2_micro (w : W) (fs : gmap string string) :
  let r := get_free_tier_instance_type aws (start w fs) in
  (Ev (free_tier_query 5) (Ok []) ∈ calls r.2 ->
   r.1 = Returned "t3.micro" /\
   stdout r.2 =
     ["No free-tier instance types found, using t2.micro as fallback"]) /\
  (forall msg,
     Ev (free_tier_query 5) (Err (ClientError msg)) ∈ calls r.2 ->
     r.1 = Returned "t3.micro" /\
     stdout r.2 =
       ["Error querying instance types: " +:+ msg +:+
        ", using t2.micro as fallback"]).
Proof.
  intros r. subst r.
  unfold get_free_tier_instance_type, request, start, free_tier_query. py_eval.
  destruct (aws _ w) as [[ts|[msg'| |msg']] w']; py_eval.
  - destruct ts; py_eval; cbn [app];
      (split; [|intros msg]); intros H; log_entry H; done.
  - cbn [app]. split; [|intros msg]; intros H; log_entry H; done.
  - cbn [app]. split; [|intros msg]; intros H; log_entry H.
  - cbn [app]. split; [|intros msg]; intros H; log_entry H.
Qed.

(** X13.  The three setup steps never touch the working directory, whatever
    the provider answers; the key check and the type lookup issue exactly
    one request each, the group step between one and three. *)
Theorem setup_steps_keep_files (w : W) (fs : gmap string string) :
  (forall key_name,
     let r := check_key_pair aws key_name (start w fs) in
     files r.2 = fs /\ requests r.2 = [DescribeKeyPairs [key_name]]) /\
  (let r := get_free_tier_instance_type aws (start w fs) in
   files r.2 = fs /\ requests r.2 = [free_tier_query 5]) /\
  (let r := create_security_group aws (start w fs) in
   files r.2 = fs /\
   head (requests r.2) = Some group_lookup /\
   (length (requests r.2) <= 3)%nat).
Proof.
  unfold requests. split; [|split].
  - intros key_name. cbv zeta.
    destruct (step_run _ _ _ (check_key_pair_follows aws key_name)
                (check_key_pair_confined aws key_name) w fs [] [])
      as (evs & out & o & w' & Heq & Hp & _).
    unfold start. rewrite Heq. cbn [fst snd files calls app].
    split; [done|]. by destruct Hp.
  - cbv zeta.
    destruct (step_run _ _ _ (get_free_tier_instance_type_follows aws)
                (get_free_tier_instance_type_confined aws) w fs [] [])
      as (evs & out & o & w' & Heq & Hp & _).
    unfold start. rewrite Heq. cbn [fst snd files calls app].
    split; [done|]. by destruct Hp.
  - cbv zeta.
    destruct (step_run _ _ _ (create_security_group_follows aws)
                (create_security_group_confined aws) w fs [] [])
      as (evs & out & o & w' & Heq & Hp & _).
    unfold start. rewrite Heq. cbn [fst snd files calls app].
    split; [done|]. destruct Hp; (split; [done|simpl; lia]).
Qed.

(** X14.  When the lookup of the group is answered with an empty list,
    [create_security_group] has already printed that the group exists and
    then raises [IndexError]; nothing is created, and [main] ends with that
    exception before any launch. *)
Theorem create_security_group_empty_lookup (w : W) (fs : gmap string string) :
  (let r := create_security_group aws (start w fs) in
   Ev group_lookup (Ok []) ∈ calls r.2 ->
   r.1 = Raised IndexError /\
   requests r.2 = [group_lookup] /\
   stdout r.2 =
     ["Security group 'python-sg-for-ssh' already exists. Using it."]) /\
  (let m := main aws (start w fs) in
   Ev group_lookup (Ok []) ∈ calls m.2 ->
   m.1 = Raised IndexError /\
   last (requests m.2) = Some group_lookup /\
   files m.2 = fs).
Proof.
  split.
  - intros r. subst r.
    unfold create_security_group, request, start, requests, group_lookup.
    py_eval.
    destruct (aws _ w) as [[gs|[msg'| |msg']] w']; py_eval.
    + destruct gs; py_eval; cbn [app]; intros H; log_entry H; done.
    + destruct (str_in _ _); py_eval.
      * destruct (aws _ w') as [[gid|[msg''| |msg'']] w'']; py_eval.
        -- destruct (aws _ w'') as [[u|[m3| |m3]] w3]; py_eval; cbn [app];
             intros H; log_entry H.
        -- cbn [app]; intros H; log_entry H.
        -- cbn [app]; intros H; log_entry H.
        -- cbn [app]; intros H; log_entry H.
      * cbn [app]; intros H; log_entry H.
    + cbn [app]; intros H; log_entry H.
    + cbn [app]; intros H; log_entry H.
  - intros m H. subst m. unfold requests.
    pose proof (main_runs aws w fs) as Hm. cbv zeta in Hm.
    destruct (main aws (start w fs)) as [o [w' fs' out log]].
    cbn [fst snd calls files stdout] in *.
    destruct Hm as [evs out Hk|evs e' out Hk|evs1 evs2 e' out Hk Ht|
                    evs1 evs2 ty evs3 e' out Hk Ht Hg|
                    evs1 evs2 ty evs3 sg out Hk Ht Hg|
                    evs1 evs2 ty evs3 sg evs4 o fs' out out' Hk Ht Hg Hsg Hb Hl];
      try pose proof (launch_path_calls _ _ _ _ _ _ _ _ Hl) as HP4;
      find_step H;
      destruct (group_path_empty_answer _ _ Hg H) as [Ho ->];
      try discriminate Ho.
    injection Ho as ->. split; [done|]. split; [|done].
    rewrite !fmap_app. by do 2 apply last_app_last.
Qed.

(** X15.  [create_security_group] returns an identifier only on two paths:
    the lookup found a group, and the identifier is that of the first group
    of the answer; or the lookup was answered "not found", the creation
    returned the identifier and the rule was added to it. *)
Theorem create_security_group_result_is_justified
    (w : W) (fs : gmap string string) :
  forall gid,
    let r := create_security_group aws (start w fs) in
    r.1 = Returned (Some gid) ->
    (exists g gs, calls r.2 = [Ev group_lookup (Ok (g :: gs))] /\
                  gid = GroupId g) \/
    (exists msg,
       str_in "InvalidGroup.NotFound" msg = true /\
       calls r.2 =
         [ Ev group_lookup (Err (ClientError msg));
           Ev group_creation (Ok gid);
           Ev (AuthorizeSecurityGroupIngress gid [ssh_rule]) (Ok tt) ]).
Proof.
  intros gid r. subst r.
  destruct (create_security_group_follows aws (start w fs)) as (evs & Hl & Hp).
  rewrite Hl. cbn [start calls app]. intros Ho. rewrite Ho in Hp.
  inversion Hp; subst.
  - left. by eexists _, _.
  - right. match goal with
           | u : reply (AuthorizeSecurityGroupIngress _ _) |- _ => destruct u
           end.
    by eexists.
Qed.

(** X10.  The Lister has no error handling: when its request is answered
    with an exception, a client error included, the run ends with that
    exception and nothing was printed, not even the heading. *)
Theorem list_ec2_raises (w : W) (fs : gmap string string) :
  forall e,
    let r := list_ec2 aws (start w fs) in
    Ev DescribeInstances (Err e) ∈ calls r.2 ->
    r.1 = Raised e /\ stdout r.2 = [] /\ files r.2 = fs.
Proof.
  intros e r. subst r.
  unfold list_ec2, request, start. py_eval.
  destruct (aws DescribeInstances w) as [[v|e'] w']; py_eval; cbn [app].
  - erewrite (for_each_for_each_prints _ Instances); [|reflexivity]. py_eval.
    intros H. log_entry H.
  - intros H. log_entry H. done.
Qed.

(** X11.  The Lister issues exactly one request and never touches the
    working directory; when the request is answered, the number of lines
    on the console is two more than the number of instances, so a
    reservation without instances adds no line. *)
Theorem list_ec2_one_request_and_count (w : W) (fs : gmap string string) :
  let r := list_ec2 aws (start w fs) in
  requests r.2 = [DescribeInstances] /\
  files r.2 = fs /\
  (forall reservations,
     Ev DescribeInstances (Ok reservations) ∈ calls r.2 ->
     length (stdout r.2) =
       (2 + sum_list (length ∘ Instances <$> reservations))%nat).
Proof.
  intros r. subst r.
  unfold list_ec2, request, start, requests. py_eval.
  destruct (aws DescribeInstances w) as [[v|e'] w']; py_eval; cbn [app].
  - erewrite (for_each_for_each_prints _ Instances); [|reflexivity]. py_eval.
    split; [done|]. split; [done|].
    intros reservations H. log_entry H.
    cbn [app length]. rewrite length_fmap, length_concat_instances. done.
  - split; [done|]. split; [done|]. intros reservations H. log_entry H.
Qed.

End StepProperties.

Section GroupRegistry.

Context {W : Type} (aws : Provider W) (registered : W -> string -> option string).
Context (Htracks : tracks_groups aws registered).

(** In an account where the name is registered the group is reused. *)
Lemma create_security_group_reuses w fs gid :
  registered w "python-sg-for-ssh" = Some gid ->
  (create_security_group aws (start w fs)).1 = Returned (Some gid) /\
  requests (create_security_group aws (start w fs)).2 = [group_lookup].
Proof.
  intros Hreg.
  destruct (lookup_found _ _ Htracks _ _ _ Hreg) as (g & gs & Hfound & <-).
  unfold create_security_group, request, start, requests. py_eval.
  destruct (aws (DescribeSecurityGroups ["python-sg-for-ssh"]) w) as [r w1].
  cbn [fst snd] in *. subst r. py_eval. done.
Qed.

(** X16.  A failed addition of the rule is not repaired.  When the creation
    of the group succeeds and the addition of its rule is answered with a
    client error, the call returns [None] and the group stays; the next
    call finds it, returns its identifier, and issues no request to add
    the rule. *)
Theorem rule_failure_is_not_repaired :
  forall w fs fs' gid msg,
    let first := create_security_group aws (start w fs) in
    Ev group_creation (Ok gid) ∈ calls first.2 ->
    Ev (AuthorizeSecurityGroupIngress gid [ssh_rule]) (Err (ClientError msg))
      ∈ calls first.2 ->
    first.1 = Returned None /\
    let second := create_security_group aws (start (cloud first.2) fs') in
    second.1 = Returned (Some gid) /\
    requests second.2 = [group_lookup].
Proof.
  intros w fs fs' gid msg first Hcreated Hrule.
  assert (first.1 = Returned None /\
          registered (cloud first.2) "python-sg-for-ssh" = Some gid)
    as [Hnone Hreg].
  { subst first. revert Hcreated Hrule.
    unfold create_security_group, request, start, group_creation, ssh_rule.
    py_eval.
    destruct (aws (DescribeSecurityGroups ["python-sg-for-ssh"]) w)
      as [[gs|[msg0| |msg0]] w1]; py_eval.
    - destruct gs; py_eval; cbn [app]; intros H; log_entry H.
    - destruct (str_in _ _); py_eval;
        [|cbn [app]; intros H; log_entry H].
      match goal with
      | |- context [aws (CreateSecurityGroup ?n ?d) w1] =>
          pose proof (create_registers _ _ Htracks w1 n d) as Hcreate;
          destruct (aws (CreateSecurityGroup n d) w1)
            as [[gid'|[msg'| |msg']] w2]; py_eval;
          [|cbn [app]; intros H; log_entry H..]
      end.
      match goal with
      | |- context [aws (AuthorizeSecurityGroupIngress ?g ?ps) w2] =>
          pose proof (authorize_keeps _ _ Htracks w2 g ps "python-sg-for-ssh")
            as Hkeep;
          destruct (aws (AuthorizeSecurityGroupIngress g ps) w2)
            as [[u|[msg'| |msg']] w3]; py_eval; cbn [app];
          intros H1 H2; log_entry H1; log_entry H2
      end.
      cbn [fst snd] in *. split; [done|]. rewrite Hkeep. by apply Hcreate.
    - cbn [app]; intros H; log_entry H.
    - cbn [app]; intros H; log_entry H. }
  split; [done|]. by apply create_security_group_reuses.
Qed.

End GroupRegistry.

(** ** The further properties against the small providers *)

Lemma rule_refused_tracks_groups :
  tracks_groups Faulty.rule_refused Sim.registered.
Proof.
  destruct sim_tracks_groups as [Hfound Hsound Hpure Hcreate _].
  split; [exact Hfound|exact Hsound|exact Hpure|exact Hcreate|].
  by intros a g perms n.
Qed.

(** X1 at work: the lookup of the key pair is refused for lack of rights. *)
Lemma check_key_pair_any_client_error_witness :
  let w := (Sim.fresh,
            Faulty.raising is_key_call (ClientError Sim.not_authorized)) in
  (check_key_pair Faulty.handle "my-python-key" (start w ∅)).1
    = Returned false /\
  stdout (check_key_pair Faulty.handle "my-python-key" (start w ∅)).2
    = ["Error checking key pair: " +:+ Sim.not_authorized] /\
  requests (main Faulty.handle (start w ∅)).2
    = [DescribeKeyPairs ["my-python-key"]].
Proof.
  intros w.
  destruct (proj1 (check_key_pair_any_client_error Faulty.handle w ∅)
              "my-python-key" Sim.not_authorized) as (Hr & _ & Hout);
    [in_log|].
  destruct (proj2 (check_key_pair_any_client_error Faulty.handle w ∅)
              Sim.not_authorized) as (_ & Hreq & _); [in_log|].
  split; [exact Hr|]. split; [by apply Hout|exact Hreq].
Defined.

(** X2 at work: the waiter gives up. *)
Lemma main_raises_other_exceptions_witness :
  let w := (Sim.fresh, Faulty.raising Faulty.is_wait_call Faulty.waiter_error) in
  (main Faulty.handle (start w ∅)).1 = Raised Faulty.waiter_error /\
  files (main Faulty.handle (start w ∅)).2 = ∅.
Proof.
  intros w.
  destruct (main_raises_other_exceptions Faulty.handle w ∅
              (WaitUntilRunning {| instance_id := "i-0123456789abcdef0" |})
              Faulty.waiter_error) as (Hr & _ & Hfs); [in_log|exact I|].
  by split.
Defined.


(** X6 at work: the launch is refused for lack of rights; and, on another
    account, the load of the attributes is. *)
Lemma main_reports_launch_failure_witness :
  let w := (Sim.fresh, Faulty.raising is_launch (ClientError Sim.not_authorized)) in
  let w' := (Sim.fresh,
             Faulty.raising Faulty.is_load_call (ClientError Sim.not_authorized)) in
  ((main Faulty.handle (start w ∅)).1 = Returned tt /\
   last (stdout (main Faulty.handle (start w ∅)).2)
     = Some ("Failed to launch instance: " +:+ Sim.not_authorized) /\
   files (main Faulty.handle (start w ∅)).2 = ∅) /\
  ((main Faulty.handle (start w' ∅)).1 = Returned tt /\
   last (stdout (main Faulty.handle (start w' ∅)).2)
     = Some ("Failed to launch instance: " +:+ Sim.not_authorized) /\
   last (requests (main Faulty.handle (start w' ∅)).2)
     = Some (Load {| instance_id := "i-0123456789abcdef0" |}) /\
   files (main Faulty.handle (start w' ∅)).2 = ∅).
Proof.
  intros w w'. split.
  - destruct (main_reports_launch_failure Faulty.handle w ∅
                (launch_request "my-python-key" "t2.micro" "sg-python-sg-for-ssh")
                Sim.not_authorized) as (Hr & Hout & _ & Hfs);
      [reflexivity|in_log|].
    by repeat split.
  - destruct (main_reports_launch_failure Faulty.handle w' ∅
                (Load {| instance_id := "i-0123456789abcdef0" |})
                Sim.not_authorized) as (Hr & Hout & _ & Hfs);
      [reflexivity|in_log|].
    split; [exact Hr|]. split; [exact Hout|]. split; [reflexivity|exact Hfs].
Defined.

(** X7 at work: the scenario of the specification. *)
Lemma main_prints_instructions_witness :
  instructions_banner ∈ stdout (main Sim.handle (start Sim.fresh ∅)).2.
Proof.
  apply (main_prints_instructions Sim.handle Sim.fresh ∅
           {| instance_id := "i-0123456789abcdef0" |}
           {| state := {| Name := "running" |};
              public_ip_address := Some "203.0.113.5" |}
           "203.0.113.5"); [in_log|reflexivity|discriminate].
Defined.

(** X8 at work: the address is the empty string. *)
Lemma empty_address_is_no_address_witness :
  let fs : gmap string string := {[ "instance_connection.txt" := "earlier" ]} in
  (main Sim.handle (start Faulty.empty_address fs)).1 = Returned tt /\
  files (main Sim.handle (start Faulty.empty_address fs)).2 = fs.
Proof.
  intros fs.
  destruct (proj2 (empty_address_is_no_address Sim.handle
                     Faulty.empty_address fs)
              {| instance_id := "i-0123456789abcdef0" |}
              {| state := {| Name := "running" |};
                 public_ip_address := Some "" |})
    as (Hr & Hfs & _); [in_log|reflexivity|].
  by split.
Defined.

(** X10 at work: the listing is refused for lack of rights. *)
Lemma list_ec2_raises_witness :
  let w := (Sim.with_instances,
            Faulty.raising (fun _ => true) (ClientError Sim.not_authorized)) in
  (list_ec2 Faulty.handle (start w ∅)).1
    = Raised (ClientError Sim.not_authorized) /\
  stdout (list_ec2 Faulty.handle (start w ∅)).2 = [].
Proof.
  intros w.
  destruct (list_ec2_raises Faulty.handle w ∅ (ClientError Sim.not_authorized))
    as (Hr & Hout & _); [in_log|].
  by split.
Defined.

(** X12 at work: no eligible type, and a refused query. *)
Lemma fallback_message_names_t2_micro_witness :
  stdout (get_free_tier_instance_type Sim.handle (start Sim.no_types ∅)).2
    = ["No free-tier instance types found, using t2.micro as fallback"] /\
  (get_free_tier_instance_type Sim.handle (start Sim.types_refused ∅)).1
    = Returned "t3.micro".
Proof.
  split.
  - apply (proj1 (fallback_message_names_t2_micro Sim.handle Sim.no_types ∅)).
    in_log.
  - apply (proj2 (fallback_message_names_t2_micro Sim.handle
                    Sim.types_refused ∅) Sim.not_authorized).
    in_log.
Defined.

(** X14 at work: the lookup is answered with an empty list. *)
Lemma create_security_group_empty_lookup_witness :
  let w := (Sim.fresh, Faulty.empty_lookup) in
  (create_security_group Faulty.handle (start w ∅)).1 = Raised IndexError /\
  (main Faulty.handle (start w ∅)).1 = Raised IndexError.
Proof.
  intros w. split.
  - apply (proj1 (create_security_group_empty_lookup Faulty.handle w ∅)).
    in_log.
  - apply (proj2 (create_security_group_empty_lookup Faulty.handle w ∅)).
    in_log.
Defined.

(** X15 at work: the group is created on the fresh account. *)
Lemma create_security_group_result_is_justified_witness :
  exists msg,
    calls (create_security_group Sim.handle (start Sim.fresh ∅)).2 =
      [ Ev group_lookup (Err (ClientError msg));
        Ev group_creation (Ok "sg-python-sg-for-ssh");
        Ev (AuthorizeSecurityGroupIngress "sg-python-sg-for-ssh" [ssh_rule])
           (Ok tt) ].
Proof.
  destruct (create_security_group_result_is_justified Sim.handle Sim.fresh ∅
              "sg-python-sg-for-ssh" eq_refl)
    as [(g & gs & Hl & _)|(msg & _ & Hl)].
  - vm_compute in Hl. discriminate Hl.
  - by exists msg.
Defined.

(** X16 at work: every addition of a rule is refused. *)
Lemma rule_failure_is_not_repaired_witness :
  let first := create_security_group Faulty.rule_refused (start Sim.fresh ∅) in
  let second :=
    create_security_group Faulty.rule_refused (start (cloud first.2) ∅) in
  first.1 = Returned None /\
  second.1 = Returned (Some "sg-python-sg-for-ssh") /\
  requests second.2 = [group_lookup].
Proof.
  apply (rule_failure_is_not_repaired Faulty.rule_refused Sim.registered
           rule_refused_tracks_groups Sim.fresh ∅ ∅ "sg-python-sg-for-ssh"
           Sim.not_authorized); in_log.
Defined.
